(** * WTRTK-982 serial bridge: the two request handlers of [app.py]

    [app.py] exposes two POST handlers, [write_config] and [save_config],
    that open a serial port, write line-oriented ASCII commands and poll the
    port for a fixed window after each write.  This development embeds both
    handlers over an explicit model of what they talk to:

    - the request body is the Python value returned by [request.get_json()],
      a JSON value ([Py.json]; [JNull] is Python's [None]); a request that
      the framework answers itself, before the handler runs, is not a run of
      the handler;
    - the serial port is a scripted device ([Dev.device]): the outcome of the
      open, of each write and of each poll of the drain loop is read from the
      script, so a statement quantified over all devices covers every
      behaviour of the hardware;
    - [time.time()] and [time.sleep()] act on a clock kept in the state, in
      milliseconds;
    - every call on the port is appended to a trace ([Dev.event]).

    Logging calls ([app.logger]) have no effect on the response or on the
    port and are left out.  JSON numbers are integers.

    Line 116 of [app.py] is indented with three U+3000 characters instead of
    spaces, and Python rejects the file as shipped for it.  The handlers are
    modelled as they read with that line indented like its neighbours.

    The clock counts whole milliseconds, where the source subtracts and
    compares floating-point seconds: a loop test that falls exactly on the
    end of the window can go the other way in the source, for one more pass
    of the loop.  The bound stated below on the number of passes leaves room
    for it. *)

From Stdlib Require Import ZArith NArith List Bool String Ascii Lia.
From Stdlib Require Import Strings.Byte.
Import ListNotations.
Local Open Scope Z_scope.
Set Warnings "-register-all".

(** ** Python values *)

Module Py.

(** A Python [str] is a sequence of code points. *)
Definition pystr := list N.

(** A Python [bytes] object. *)
Definition pybytes := list byte.

(** The code points of an ASCII literal of the source. *)
Definition u (s : string) : pystr :=
  map N_of_ascii (list_ascii_of_string s).

Arguments u : simpl never.

Fixpoint pystr_eqb (a b : pystr) : bool :=
  match a, b with
  | [], [] => true
  | x :: a', y :: b' => (x =? y)%N && pystr_eqb a' b'
  | _, _ => false
  end.

(** [str.isspace] on one code point. *)
Definition py_isspace (c : N) : bool :=
  ((9 <=? c) && (c <=? 13) || (28 <=? c) && (c <=? 32)
   || (c =? 133) || (c =? 160) || (c =? 5760)
   || (8192 <=? c) && (c <=? 8202)
   || (c =? 8232) || (c =? 8233) || (c =? 8239) || (c =? 8287)
   || (c =? 12288))%N.

Fixpoint lstrip (s : pystr) : pystr :=
  match s with
  | [] => []
  | c :: r => if py_isspace c then lstrip r else s
  end.

Definition rstrip (s : pystr) : pystr := rev (lstrip (rev s)).

(** [s.strip()] *)
Definition py_strip (s : pystr) : pystr := rstrip (lstrip s).

(** [sep.join(lines)] *)
Fixpoint join (sep : pystr) (lines : list pystr) : pystr :=
  match lines with
  | [] => []
  | [l] => l
  | l :: rest => l ++ sep ++ join sep rest
  end.

(** [s.encode('ascii')]: [None] stands for [UnicodeEncodeError]. *)
Fixpoint encode_ascii (s : pystr) : option pybytes :=
  match s with
  | [] => Some []
  | c :: r =>
      if (c <? 128)%N then
        match Byte.of_N c, encode_ascii r with
        | Some b, Some bs => Some (b :: bs)
        | _, _ => None
        end
      else None
  end.

(** [b.decode('ascii', errors='ignore')]: bytes outside 7-bit ASCII are
    dropped; this call never raises. *)
Definition decode_ascii_ignore (b : pybytes) : pystr :=
  filter (fun c => (c <? 128)%N) (map Byte.to_N b).

(** JSON values as [request.get_json()] hands them over.  A dict keeps its
    insertion order. *)
Inductive json :=
| JNull
| JBool (b : bool)
| JInt (z : Z)
| JStr (s : pystr)
| JArr (items : list json)
| JObj (fields : list (pystr * json)).

(** Truthiness, as [not x] and [all([...])] see it. *)
Definition truthy (v : json) : bool :=
  match v with
  | JNull => false
  | JBool b => b
  | JInt z => negb (z =? 0)
  | JStr s => negb (Nat.eqb (List.length s) 0)
  | JArr l => negb (Nat.eqb (List.length l) 0)
  | JObj f => negb (Nat.eqb (List.length f) 0)
  end.

(** [x is not None] *)
Definition is_not_none (v : json) : bool :=
  match v with JNull => false | _ => true end.

Fixpoint lookup (k : pystr) (fields : list (pystr * json)) : option json :=
  match fields with
  | [] => None
  | (k', v) :: rest => if pystr_eqb k k' then Some v else lookup k rest
  end.

(** The value [d.get(k)] gives on a dict with these fields. *)
Definition field (k : pystr) (fields : list (pystr * json)) : json :=
  match lookup k fields with
  | Some v => v
  | None => JNull
  end.

(** Exceptions, by the class the handlers' [except] clauses tell apart, with
    the text [str(e)] gives. *)
Inductive exn_class :=
| SerialException
| UnicodeDecodeError
| UnicodeEncodeError
| AttributeError
| TypeError
| OtherException.

Record exn := Exn { exn_cls : exn_class; exn_text : pystr }.

Definition is_serial_exception (e : exn) : bool :=
  match exn_cls e with SerialException => true | _ => false end.

Definition is_unicode_decode_error (e : exn) : bool :=
  match exn_cls e with UnicodeDecodeError => true | _ => false end.

Inductive res (A : Type) :=
| Ok (a : A)
| Raise (e : exn).
Arguments Ok {A} a.
Arguments Raise {A} e.

End Py.
Export Py.

(** ** The serial port and the clock *)

Module Dev.

(** Calls made on the port, in program order.  A call is recorded when it is
    made, whether it then succeeds or raises. *)
Inductive event :=
| EvOpen (port baudrate : json) (timeout write_timeout : Z)
| EvWrite (data : pybytes)
| EvInWaiting
| EvReadline
| EvClose.

(** What the device answers.  [lag] is the time, in milliseconds, that the
    call keeps the caller waiting. *)
Inductive write_result :=
| WriteOk (lag : N)
| WriteRaises (e : exn).

Inductive read_result :=
| ReadLine (raw : pybytes)
| ReadRaises (e : exn).

(** [raw] is what one call of [readline()] hands over.  The library stops at
    the first line feed, so [raw] has none before its last byte. *)
Definition one_line (raw : pybytes) : bool :=
  forallb (fun b => negb (Byte.eqb b x0a)) (removelast raw).

(** One poll of the drain loop: nothing waiting, [in_waiting] itself raising,
    or [waiting] bytes in the buffer and what [readline()] then does. *)
Inductive poll :=
| Idle (lag : N)
| WaitingRaises (e : exn)
| Data (waiting : positive) (r : read_result) (lag : N).

Record device := Device {
  dev_clock : Z;
  dev_open : option exn;
  dev_writes : list write_result;
  dev_polls : list poll
}.

Record st := St {
  now : Z;
  open_result : option exn;
  writes_left : list write_result;
  polls_left : list poll;
  trace : list event
}.

Definition boot (d : device) : st :=
  St (dev_clock d) (dev_open d) (dev_writes d) (dev_polls d) [].

Definition log (ev : event) (s : st) : st :=
  St (now s) (open_result s) (writes_left s) (polls_left s) (trace s ++ [ev]).

Definition tick (ms : Z) (s : st) : st :=
  St (now s + ms) (open_result s) (writes_left s) (polls_left s) (trace s).

Definition set_writes (w : list write_result) (s : st) : st :=
  St (now s) (open_result s) w (polls_left s) (trace s).

Definition set_polls (p : list poll) (s : st) : st :=
  St (now s) (open_result s) (writes_left s) p (trace s).

(** Computations over the port and the clock that may raise.  [None] is
    reserved for a loop that ran out of fuel. *)
Definition M (A : Type) := st -> option (st * res A).

Definition ret {A} (a : A) : M A := fun s => Some (s, Ok a).

Definition raise {A} (e : exn) : M A := fun s => Some (s, Raise e).

Definition lift {A} (r : res A) : M A := fun s => Some (s, r).

Definition bind {A B} (c : M A) (k : A -> M B) : M B :=
  fun s =>
    match c s with
    | None => None
    | Some (s1, Raise e) => Some (s1, Raise e)
    | Some (s1, Ok a) => k a s1
    end.

Declare Scope port_scope.
Delimit Scope port_scope with port.
Notation "x <- c ;; k" := (bind c (fun x => k))
  (at level 100, c at next level, right associativity) : port_scope.
Notation "c ;; k" := (bind c (fun _ => k))
  (at level 100, right associativity) : port_scope.

(** [serial.Serial(port, baudrate, timeout=..., write_timeout=...)] *)
Definition Serial (port baudrate : json) (timeout write_timeout : Z) : M unit :=
  fun s =>
    let s1 := log (EvOpen port baudrate timeout write_timeout) s in
    match open_result s1 with
    | None => Some (s1, Ok tt)
    | Some e => Some (s1, Raise e)
    end.

(** [ser.write(data)] *)
Definition ser_write (data : pybytes) : M unit :=
  fun s =>
    let s1 := log (EvWrite data) s in
    match writes_left s1 with
    | [] => Some (s1, Ok tt)
    | WriteOk lag :: w => Some (tick (Z.of_N lag) (set_writes w s1), Ok tt)
    | WriteRaises e :: w => Some (set_writes w s1, Raise e)
    end.

(** [ser.in_waiting] *)
Definition in_waiting : M Z :=
  fun s =>
    let s1 := log EvInWaiting s in
    match polls_left s1 with
    | [] => Some (s1, Ok 0)
    | Idle lag :: p => Some (tick (Z.of_N lag) (set_polls p s1), Ok 0)
    | WaitingRaises e :: p => Some (set_polls p s1, Raise e)
    | Data n _ _ :: _ => Some (s1, Ok (Zpos n))
    end.

(** [ser.readline()] *)
Definition readline : M pybytes :=
  fun s =>
    let s1 := log EvReadline s in
    match polls_left s1 with
    | Data _ (ReadLine raw) lag :: p =>
        Some (tick (Z.of_N lag) (set_polls p s1), Ok raw)
    | Data _ (ReadRaises e) lag :: p =>
        Some (tick (Z.of_N lag) (set_polls p s1), Raise e)
    | _ => Some (s1, Ok [])
    end.

(** [ser.close()] *)
Definition ser_close : M unit := fun s => Some (log EvClose s, Ok tt).

(** [time.time()], in milliseconds *)
Definition time_time : M Z := fun s => Some (s, Ok (now s)).

(** [time.sleep(ms / 1000)] *)
Definition time_sleep (ms : Z) : M unit := fun s => Some (tick ms s, Ok tt).

End Dev.
Export Dev.

(** ** The handlers *)

Module App.

Local Open Scope port_scope.

(** Module constants of [app.py], in seconds. *)
Definition SERIAL_TIMEOUT : Z := 1.
Definition READ_RESPONSE_DURATION : Z := 2.

(** The drain loop sleeps 10 ms per iteration, so 200 iterations use up the
    window and the 201st call sees it closed. *)
Definition drain_fuel : nat := 201.

Record response := Response {
  http_status : Z;
  status : pystr;
  message : pystr;
  received_data : option pystr
}.

(** What the client gets: the handler's JSON reply, or the framework's
    answer to an exception that left the handler. *)
Inductive outcome :=
| Reply (r : response)
| Uncaught (e : exn).

Definition error_reply (code : Z) (msg : pystr) : response :=
  Response code (u "error") msg None.

Definition LF : pystr := [10%N].

Definition success_reply (msg : pystr) (lines : list pystr) : response :=
  Response 200 (u "success") msg (Some (join LF lines)).

(** [try: c  except Exception as e: h e] *)
Definition catch {A} (c : M A) (h : exn -> M A) : M A :=
  fun s =>
    match c s with
    | Some (s1, Raise e) => h e s1
    | r => r
    end.

Definition binary_annotation : pystr :=
  u "Received: (Binary data - cannot decode as ASCII)".

Definition error_annotation (phase : pystr) (e : exn) : pystr :=
  u "Error reading during " ++ phase ++ u ": " ++ exn_text e.

Definition received_annotation (line : pystr) : pystr :=
  u "Received: " ++ line.

(** The [try] statement inside the loop (lines 65-76 and 132-140):
    one [readline()], decoded leniently and stripped. *)
Definition read_poll (phase : pystr) (lines : list pystr) : M (list pystr) :=
  catch
    (raw <- readline ;;
     let line := py_strip (decode_ascii_ignore raw) in
     if truthy (JStr line)
     then ret (lines ++ [received_annotation line])
     else ret lines)
    (fun e =>
       if is_unicode_decode_error e
       then ret (lines ++ [binary_annotation])
       else ret (lines ++ [error_annotation phase e])).

(** The [while] loop (lines 63-77 and 130-141).  The test is on the
    millisecond clock. *)
Fixpoint drain (phase : pystr) (fuel : nat) (start_time : Z)
    (lines : list pystr) : M (list pystr) :=
  match fuel with
  | O => fun _ => None
  | S fuel' =>
      t <- time_time ;;
      if t - start_time <? READ_RESPONSE_DURATION * 1000 then
        n <- in_waiting ;;
        lines' <- (if 0 <? n then read_poll phase lines else ret lines) ;;
        time_sleep 10 ;;
        drain phase fuel' start_time lines'
      else ret lines
  end.

(** One drain window, from [start_time = time.time()] on. *)
Definition drain_window (phase : pystr) (lines : list pystr) : M (list pystr) :=
  start_time <- time_time ;;
  drain phase drain_fuel start_time lines.

Definition CRLF : pystr := [13%N; 10%N].

(** *** What one poll contributes *)

(** The drain loop consumes the device's poll script one entry per
    iteration.  [poll_lines], [poll_events] and [poll_lag] say what an entry
    adds to the transcript, to the trace and to the clock; [drain_unfold]
    ties them to the loop. *)

Definition poll_lines (phase : pystr) (p : poll) : list pystr :=
  match p with
  | Idle _ => []
  | WaitingRaises _ => []
  | Data _ (ReadLine raw) _ =>
      match py_strip (decode_ascii_ignore raw) with
      | [] => []
      | text => [received_annotation text]
      end
  | Data _ (ReadRaises e) _ =>
      if is_unicode_decode_error e then [binary_annotation]
      else [error_annotation phase e]
  end.

Definition poll_lag (p : poll) : Z :=
  match p with
  | Idle lag => Z.of_N lag
  | WaitingRaises _ => 0
  | Data _ _ lag => Z.of_N lag
  end.

Definition poll_events (p : poll) : list event :=
  match p with
  | Idle _ => [EvInWaiting]
  | WaitingRaises _ => [EvInWaiting]
  | Data _ _ _ => [EvInWaiting; EvReadline]
  end.

Definition poll_raises (p : poll) : bool :=
  match p with
  | WaitingRaises _ => true
  | _ => false
  end.

(** The state after one iteration of the loop body. *)
Definition after_poll (s : st) : st :=
  match polls_left s with
  | [] =>
      St (now s + 10) (open_result s) (writes_left s) []
         (trace s ++ [EvInWaiting])
  | WaitingRaises e :: rest =>
      St (now s) (open_result s) (writes_left s) rest
         (trace s ++ [EvInWaiting])
  | p :: rest =>
      St (now s + poll_lag p + 10) (open_result s) (writes_left s) rest
         (trace s ++ poll_events p)
  end.

Definition head_lines (phase : pystr) (polls : list poll) : list pystr :=
  match polls with
  | [] => []
  | p :: _ => poll_lines phase p
  end.

(** Events and scripts, classified. *)

Definition is_poll_event (ev : event) : bool :=
  match ev with
  | EvInWaiting | EvReadline => true
  | _ => false
  end.

Definition is_io_event (ev : event) : bool :=
  match ev with
  | EvWrite _ | EvInWaiting | EvReadline => true
  | _ => false
  end.

Definition is_close (ev : event) : bool :=
  match ev with
  | EvClose => true
  | _ => false
  end.

(** The payloads of the writes of a trace, in order. *)
Fixpoint writes_of (tr : list event) : list pybytes :=
  match tr with
  | [] => []
  | EvWrite b :: rest => b :: writes_of rest
  | _ :: rest => writes_of rest
  end.

(** No poll of the script makes [in_waiting] raise. *)
Definition quiet (polls : list poll) : bool :=
  forallb (fun p => negb (poll_raises p)) polls.

Definition write_raises (w : write_result) : bool :=
  match w with
  | WriteRaises _ => true
  | WriteOk _ => false
  end.

(** No write of the script raises. *)
Definition accepting (ws : list write_result) : bool :=
  forallb (fun w => negb (write_raises w)) ws.

(** The bytes a command goes out as, when it can be sent at all. *)
Definition wire (cmd : json) : option pybytes :=
  match cmd with
  | JStr s => encode_ascii (py_strip s ++ CRLF)
  | _ => None
  end.

Definition sendable (cmd : json) : bool :=
  match wire cmd with
  | Some _ => true
  | None => false
  end.

(** Time taken by the polls of a script, sleeps included. *)
Fixpoint span (polls : list poll) : Z :=
  match polls with
  | [] => 0
  | p :: rest => poll_lag p + 10 + span rest
  end.

(** [s'] is [s] after some polling: nothing but polls happened. *)
Record polled (s s' : st) : Prop := Polled {
  polled_open : open_result s' = open_result s;
  polled_writes : writes_left s' = writes_left s;
  polled_clock : now s <= now s';
  polled_trace : exists evs,
      trace s' = trace s ++ evs /\ forallb is_poll_event evs = true
}.

(** The drain window in milliseconds. *)
Definition window : Z := READ_RESPONSE_DURATION * 1000.

Definition open_event (port baudrate : json) : event :=
  EvOpen port baudrate SERIAL_TIMEOUT SERIAL_TIMEOUT.

(** The state once the port is open and the 100 ms pause is over. *)
Definition opened (port baudrate : json) (s : st) : st :=
  tick 100 (log (open_event port baudrate) s).

Definition is_success (r : response) : bool := http_status r =? 200.

(** The bytes of [b"SAVECONFIG\r\n"]. *)
Definition save_bytes : pybytes :=
  ["S"; "A"; "V"; "E"; "C"; "O"; "N"; "F"; "I"; "G"; "013"; "010"]%byte.

(** The port and the clock do not depend on what the loop does with the
    lines it reads. *)
Definition same_run {A B} (x : option (st * res A)) (y : option (st * res B)) : Prop :=
  match x, y with
  | None, None => True
  | Some (s1, Ok _), Some (s2, Ok _) => s1 = s2
  | Some (s1, Raise e1), Some (s2, Raise e2) => s1 = s2 /\ e1 = e2
  | _, _ => False
  end.

Definition closes (tr : list event) : nat := List.length (filter is_close tr).

(** What a finished request shows about [close]: called once, as the last
    call on the port, when the reply is the 200; not called otherwise. *)
Definition close_discipline (run : option (outcome * st)) : Prop :=
  exists out s,
    run = Some (out, s) /\
    match out with
    | Reply r =>
        if is_success r
        then closes (trace s) = 1%nat /\ exists tr, trace s = tr ++ [EvClose]
        else closes (trace s) = 0%nat
    | Uncaught _ => trace s = []
    end.

(** [b] is the command [cmd] on the wire: its text stripped, then carriage
    return and line feed, one byte per character, all of them 7-bit. *)
Definition transmitted (cmd : json) (b : pybytes) : Prop :=
  exists str,
    cmd = JStr str /\
    map Byte.to_N b = py_strip str ++ [13; 10]%N /\
    Forall (fun c => (c < 128)%N) (py_strip str).

(** A [write_config] body with the fields of [f] and the one command
    [SAVECONFIG]. *)
Definition save_request (f : list (pystr * json)) : json :=
  JObj ((u "commands", JArr [JStr (u "SAVECONFIG")]) :: f).

(** *** More vocabulary for runs *)

Definition is_open (ev : event) : bool :=
  match ev with
  | EvOpen _ _ _ _ => true
  | _ => false
  end.

Definition is_in_waiting (ev : event) : bool :=
  match ev with
  | EvInWaiting => true
  | _ => false
  end.

(** How many times a trace reads [ser.in_waiting]. *)
Definition polls_made (tr : list event) : nat :=
  List.length (filter is_in_waiting tr).

(** The test on line 43, and the one on line 112, on the fields of a body. *)
Definition validates_write (f : list (pystr * json)) : bool :=
  truthy (field (u "port") f) && truthy (field (u "baudrate") f)
  && is_not_none (field (u "commands") f).

Definition validates_save (f : list (pystr * json)) : bool :=
  truthy (field (u "port") f) && truthy (field (u "baudrate") f).

(** The three shapes of JSON reply the handlers build. *)
Definition reply_shape (r : response) : Prop :=
  (http_status r = 200 /\ status r = u "success" /\ received_data r <> None) \/
  ((http_status r = 400 \/ http_status r = 500) /\
   status r = u "error" /\ received_data r = None).

(** The calls of one session on the port: nothing; or one open, then writes
    and polls; or the same closed by one close. *)
Definition session_shape (tr : list event) : Prop :=
  tr = [] \/
  exists port baudrate evs,
    forallb is_io_event evs = true /\
    (tr = open_event port baudrate :: evs \/
     tr = open_event port baudrate :: evs ++ [EvClose]).

(** How a request can end: by the exception of [data.get]; by a 400 before
    any call on the port; by a reply of the [except] clauses after the open;
    by the success reply after the close. *)
Definition run_summary (failure : json -> exn -> response) (d : device)
    (out : outcome) (s : st) : Prop :=
  (exists e, out = Uncaught e /\ exn_cls e = AttributeError /\ s = boot d) \/
  (exists msg, out = Reply (error_reply 400 msg) /\ s = boot d) \/
  (exists port baudrate e evs,
      out = Reply (failure port e) /\
      trace s = open_event port baudrate :: evs /\
      forallb is_io_event evs = true) \/
  (exists port baudrate msg lines evs,
      out = Reply (success_reply msg lines) /\
      trace s = open_event port baudrate :: evs ++ [EvClose] /\
      forallb is_io_event evs = true).

(** The state a poll script [pre] leaves when every poll of it is made. *)
Definition after_polls (pre rest : list poll) (s : st) : st :=
  St (now s + span pre) (open_result s) (writes_left s) rest
     (trace s ++ flat_map poll_events pre).

(** *** Concrete requests and devices *)

(** Interpreter texts for the runs below. *)
Definition sample_repr : json -> pystr := fun _ => u "<value>".
Definition sample_error_text : exn_class -> json -> pystr := fun _ _ => u "<error>".

Definition ascii_bytes (s : string) : pybytes :=
  map byte_of_ascii (list_ascii_of_string s).

Definition usb0 : pystr := u "/dev/ttyUSB0".

Definition request (baudrate : Z) (cmds : list json) : list (pystr * json) :=
  [(u "port", JStr usb0); (u "baudrate", JInt baudrate); (u "commands", JArr cmds)].

(** A device that opens, takes every write and never has data. *)
Definition dev_idle : device := Device 0 None [] [].


(** A device that goes away after the first write: [in_waiting] raises. *)
Definition dev_unplugged : device :=
  Device 0 None [] [WaitingRaises (Exn OtherException (u "[Errno 5] Input/output error"))].

(** A constructor that rejects the baud rate with a [ValueError]. *)
Definition dev_bad_baudrate : device :=
  Device 0 (Some (Exn OtherException (u "Not a valid baudrate: -1"))) [] [].

(** A constructor that cannot find the port. *)
Definition dev_missing : device :=
  Device 0 (Some (Exn SerialException (u "could not open port"))) [] [].

(** A device that answers with a line of two bytes that are not ASCII, then
    with "OK" behind one such byte. *)
Definition dev_binary : device :=
  Device 0 None []
    [Data 3 (ReadLine [xff; xfe; x0a]) 0;
     Data 5 (ReadLine (xff :: ascii_bytes "OK")) 0].

(** A device on which one read fails and a line comes later. *)
Definition dev_glitch : device :=
  Device 0 None []
    [Idle 0;
     Data 1 (ReadRaises (Exn SerialException (u "read failed"))) 5;
     Idle 2;
     Data 4 (ReadLine (ascii_bytes "OK")) 0].

(** [needle in hay] *)
Fixpoint starts_with (needle hay : pystr) : bool :=
  match needle, hay with
  | [], _ => true
  | x :: needle', y :: hay' => (x =? y)%N && starts_with needle' hay'
  | _ :: _, [] => false
  end.

Fixpoint contains (needle hay : pystr) : bool :=
  starts_with needle hay ||
  match hay with
  | [] => false
  | _ :: hay' => contains needle hay'
  end.

Section Handlers.

(** Texts produced by the interpreter that no statement below depends on:
    [str(v)] for a value that is not a string, and [str(e)] for an error the
    interpreter raises on a value. *)
Variable py_repr : json -> pystr.
Variable py_error_text : exn_class -> json -> pystr.

(** [f"{v}"] *)
Definition py_str (v : json) : pystr :=
  match v with
  | JStr s => s
  | _ => py_repr v
  end.

(** [d.get(k)] *)
Definition dict_get (d : json) (k : pystr) : res json :=
  match d with
  | JObj f => Ok (field k f)
  | _ => Raise (Exn AttributeError (py_error_text AttributeError d))
  end.

(** [for cmd in v]: the items the loop will see. *)
Definition py_iter (v : json) : res (list json) :=
  match v with
  | JArr l => Ok l
  | JStr s => Ok (map (fun c => JStr [c]) s)
  | JObj f => Ok (map (fun kv => JStr (fst kv)) f)
  | _ => Raise (Exn TypeError (py_error_text TypeError v))
  end.

(** [v.strip()] *)
Definition str_strip (v : json) : res pystr :=
  match v with
  | JStr s => Ok (py_strip s)
  | _ => Raise (Exn AttributeError (py_error_text AttributeError v))
  end.

(** [s.encode('ascii')] *)
Definition encode (s : pystr) : res pybytes :=
  match encode_ascii s with
  | Some b => Ok b
  | None => Raise (Exn UnicodeEncodeError (py_error_text UnicodeEncodeError (JStr s)))
  end.

(** The [for] loop of [write_config] (lines 56-77). *)
Fixpoint send_commands (cmds : list json) (lines : list pystr) : M (list pystr) :=
  match cmds with
  | [] => ret lines
  | cmd :: rest =>
      stripped <- lift (str_strip cmd) ;;
      let full_command := stripped ++ CRLF in
      data <- lift (encode full_command) ;;
      ser_write data ;;
      lines' <- drain_window (u "command") lines ;;
      send_commands rest lines'
  end.

(** Lines 50-85. *)
Definition write_config_try (port baudrate commands : json) : M response :=
  Serial port baudrate SERIAL_TIMEOUT SERIAL_TIMEOUT ;;
  time_sleep 100 ;;
  cmds <- lift (py_iter commands) ;;
  lines <- send_commands cmds [] ;;
  ser_close ;;
  ret (success_reply (u "Configuration commands sent successfully.") lines).

(** The two [except] clauses, lines 87-98. *)
Definition write_config_except (port : json) (e : exn) : response :=
  if is_serial_exception e then
    error_reply 500
      (u "Failed to open or communicate with serial port '" ++ py_str port
         ++ u "'. Error: " ++ exn_text e)
  else
    error_reply 500 (u "An unexpected error occurred: " ++ exn_text e).

Definition write_config (data : json) : M response :=
  if negb (truthy data) then
    ret (error_reply 400 (u "No JSON data received"))
  else
    port <- lift (dict_get data (u "port")) ;;
    baudrate <- lift (dict_get data (u "baudrate")) ;;
    commands <- lift (dict_get data (u "commands")) ;;
    if negb (truthy port && truthy baudrate && is_not_none commands) then
      ret (error_reply 400 (u "Missing port, baudrate, or commands"))
    else
      catch (write_config_try port baudrate commands)
            (fun e => ret (write_config_except port e)).

(** Line 116, read as a statement of the body (it is indented with U+3000
    characters in the file). *)
Definition save_command : pystr := u "SAVECONFIG" ++ CRLF.

(** Lines 120-149. *)
Definition save_config_try (port baudrate : json) : M response :=
  Serial port baudrate SERIAL_TIMEOUT SERIAL_TIMEOUT ;;
  time_sleep 100 ;;
  data <- lift (encode save_command) ;;
  ser_write data ;;
  lines <- drain_window (u "save") [] ;;
  ser_close ;;
  ret (success_reply (u "Configuration saved to module successfully.") lines).

(** The two [except] clauses, lines 151-162. *)
Definition save_config_except (port : json) (e : exn) : response :=
  if is_serial_exception e then
    error_reply 500
      (u "Failed to open or communicate with serial port '" ++ py_str port
         ++ u "' for saving. Error: " ++ exn_text e)
  else
    error_reply 500 (u "An unexpected error occurred: " ++ exn_text e).

Definition save_config (data : json) : M response :=
  if negb (truthy data) then
    ret (error_reply 400 (u "No JSON data received"))
  else
    port <- lift (dict_get data (u "port")) ;;
    baudrate <- lift (dict_get data (u "baudrate")) ;;
    if negb (truthy port && truthy baudrate) then
      ret (error_reply 400 (u "Missing port or baudrate"))
    else
      catch (save_config_try port baudrate)
            (fun e => ret (save_config_except port e)).

(** The framework calling a handler on a fresh device session. *)
Definition serve (view : M response) (d : device) : option (outcome * st) :=
  match view (boot d) with
  | None => None
  | Some (s, Ok r) => Some (Reply r, s)
  | Some (s, Raise e) => Some (Uncaught e, s)
  end.

(** *** The drain loop *)

Lemma drain_unfold phase fuel start lines s :
  drain phase (S fuel) start lines s =
  if now s - start <? READ_RESPONSE_DURATION * 1000 then
    match polls_left s with
    | WaitingRaises e :: _ => Some (after_poll s, Raise e)
    | polls => drain phase fuel start (lines ++ head_lines phase polls) (after_poll s)
    end
  else Some (s, Ok lines).
Proof.
  cbn [drain]. unfold bind at 1. unfold time_time at 1.
  destruct (now s - start <? READ_RESPONSE_DURATION * 1000); [|reflexivity].
  unfold after_poll, head_lines.
  destruct s as [t o w p tr]; destruct p as [|[lag|e|n [raw|e] lag] rest]; cbn.
  - rewrite app_nil_r. reflexivity.
  - rewrite app_nil_r. reflexivity.
  - reflexivity.
  - unfold read_poll, catch, bind, readline; cbn.
    destruct (py_strip (decode_ascii_ignore raw)); cbn.
    + rewrite app_nil_r. unfold tick; cbn. rewrite <- app_assoc. reflexivity.
    + unfold tick; cbn. rewrite <- app_assoc. reflexivity.
  - unfold read_poll, catch, bind, readline; cbn.
    destruct (is_unicode_decode_error e); cbn; unfold tick; cbn;
      rewrite <- app_assoc; reflexivity.
Qed.

Lemma poll_lag_nonneg p : 0 <= poll_lag p.
Proof. destruct p; cbn; lia. Qed.

Lemma span_nonneg polls : 0 <= span polls.
Proof.
  induction polls as [|p rest IH]; cbn; [lia|].
  pose proof (poll_lag_nonneg p). lia.
Qed.

Lemma span_app a b : span (a ++ b) = span a + span b.
Proof. induction a as [|p a IH]; cbn; lia. Qed.

Lemma span_length polls : 10 * Z.of_nat (List.length polls) <= span polls.
Proof.
  induction polls as [|p rest IH]; cbn [span List.length]; [lia|].
  pose proof (poll_lag_nonneg p). lia.
Qed.

Lemma polled_refl s : polled s s.
Proof.
  split; try reflexivity; try lia.
  exists []. rewrite app_nil_r. split; reflexivity.
Qed.

Lemma polled_trans s1 s2 s3 : polled s1 s2 -> polled s2 s3 -> polled s1 s3.
Proof.
  intros [o1 w1 c1 [e1 [t1 p1]]] [o2 w2 c2 [e2 [t2 p2]]].
  split; try congruence; try lia.
  exists (e1 ++ e2). rewrite t2, t1, app_assoc, forallb_app, p1, p2.
  split; reflexivity.
Qed.

Lemma after_poll_polled s : polled s (after_poll s).
Proof.
  unfold after_poll.
  destruct (polls_left s) as [|p rest] eqn:E.
  - split; cbn; try reflexivity; try lia. eexists; split; reflexivity.
  - pose proof (poll_lag_nonneg p).
    destruct p as [lag|e|n r lag]; split; cbn in *; try reflexivity; try lia;
      eexists; split; reflexivity.
Qed.

Lemma after_poll_polls s : polls_left (after_poll s) = tl (polls_left s).
Proof.
  unfold after_poll.
  destruct (polls_left s) as [|[lag|e|n r lag] rest]; reflexivity.
Qed.

Lemma after_poll_clock s :
  match polls_left s with
  | [] => now (after_poll s) = now s + 10
  | p :: _ => poll_raises p = false -> now (after_poll s) = now s + poll_lag p + 10
  end.
Proof.
  unfold after_poll.
  destruct (polls_left s) as [|[lag|e|n r lag] rest]; cbn; congruence.
Qed.

Lemma quiet_skipn k polls : quiet polls = true -> quiet (skipn k polls) = true.
Proof.
  revert polls; induction k as [|k IH]; intros [|p rest] H; cbn in *; auto.
  apply andb_true_iff in H. apply IH, H.
Qed.

(** With fuel for the time left, the loop returns: normally once the window
    is over, after [k] iterations that consumed the first [k] polls of the
    script, or by the exception of an [in_waiting] that raised. *)
Lemma drain_run phase fuel : forall start lines s,
  window - (now s - start) <= 10 * Z.of_nat fuel ->
  exists s' r,
    drain phase (S fuel) start lines s = Some (s', r) /\
    polled s s' /\
    match r with
    | Ok lines' =>
        window <= now s' - start /\
        exists k,
          lines' = lines ++ flat_map (poll_lines phase) (firstn k (polls_left s)) /\
          polls_left s' = skipn k (polls_left s) /\
          now s' = now s + span (firstn k (polls_left s))
                   + 10 * Z.of_nat (k - List.length (polls_left s))
    | Raise _ => quiet (polls_left s) = false
    end.
Proof.
  induction fuel as [|fuel IH]; intros start lines s Hfuel;
    rewrite drain_unfold; fold window;
    destruct (now s - start <? window) eqn:T;
    try (apply Z.ltb_lt in T); try (apply Z.ltb_ge in T).
  - lia.
  - exists s, (Ok lines). split; [reflexivity|]. split; [apply polled_refl|].
    split; [lia|]. exists 0%nat. cbn. rewrite app_nil_r.
    repeat split; lia.
  - pose proof (after_poll_polled s) as P.
    pose proof (after_poll_clock s) as C.
    pose proof (after_poll_polls s) as Q.
    destruct (polls_left s) as [|p rest] eqn:E.
    + destruct (IH start (lines ++ head_lines phase []) (after_poll s))
        as (s' & r & D & P' & R); [lia|].
      exists s', r. split; [exact D|]. split; [eapply polled_trans; eauto|].
      rewrite Q in R. destruct r as [lines'|e]; [|exact R].
      destruct R as [W [k [L [K N]]]]. split; [exact W|].
      exists (S k). rewrite firstn_nil in *. rewrite skipn_nil in *.
      cbn [head_lines flat_map tl span List.length] in *.
      rewrite !app_nil_r in *. repeat split; auto. lia.
    + destruct (poll_raises p) eqn:PR.
      * destruct p; try discriminate PR.
        eexists _, _. split; [reflexivity|]. split; [exact P|]. reflexivity.
      * specialize (C eq_refl). pose proof (poll_lag_nonneg p).
        destruct (IH start (lines ++ head_lines phase (p :: rest)) (after_poll s))
          as (s' & r & D & P' & R); [lia|].
        exists s', r.
        split; [destruct p; try discriminate PR; exact D|].
        split; [eapply polled_trans; eauto|].
        rewrite Q in R. cbn [tl head_lines] in R.
        destruct r as [lines'|e].
        -- destruct R as [W [k [L [K N]]]]. split; [exact W|].
           exists (S k). cbn [firstn flat_map skipn span List.length Nat.sub].
           rewrite app_assoc. repeat split; auto. lia.
        -- unfold quiet in *. cbn [forallb]. rewrite PR, R. reflexivity.
  - exists s, (Ok lines). split; [reflexivity|]. split; [apply polled_refl|].
    split; [lia|]. exists 0%nat. cbn. rewrite app_nil_r.
    repeat split; lia.
Qed.

Lemma drain_window_eq phase lines s :
  drain_window phase lines s = drain phase drain_fuel (now s) lines s.
Proof. reflexivity. Qed.

Lemma drain_window_run phase lines s :
  exists s' r,
    drain_window phase lines s = Some (s', r) /\
    polled s s' /\
    match r with
    | Ok lines' =>
        window <= now s' - now s /\
        exists k,
          lines' = lines ++ flat_map (poll_lines phase) (firstn k (polls_left s)) /\
          polls_left s' = skipn k (polls_left s) /\
          now s' = now s + span (firstn k (polls_left s))
                   + 10 * Z.of_nat (k - List.length (polls_left s))
    | Raise _ => quiet (polls_left s) = false
    end.
Proof.
  rewrite drain_window_eq. apply drain_run.
  unfold window, READ_RESPONSE_DURATION. lia.
Qed.

(** *** The command loop *)

Lemma firstn_plus {A} k1 k2 (l : list A) :
  firstn (k1 + k2) l = firstn k1 l ++ firstn k2 (skipn k1 l).
Proof.
  revert l; induction k1 as [|k1 IH]; intros [|x l]; cbn;
    try rewrite firstn_nil; auto.
  f_equal. apply IH.
Qed.

Lemma writes_of_app a b : writes_of (a ++ b) = writes_of a ++ writes_of b.
Proof.
  induction a as [|ev a IH]; cbn; [reflexivity|].
  destruct ev; cbn; rewrite IH; reflexivity.
Qed.

Lemma writes_of_polls evs : forallb is_poll_event evs = true -> writes_of evs = [].
Proof.
  induction evs as [|ev evs IH]; cbn; [reflexivity|].
  destruct ev; cbn; try discriminate; exact IH.
Qed.

Lemma poll_events_io evs :
  forallb is_poll_event evs = true -> forallb is_io_event evs = true.
Proof.
  induction evs as [|ev evs IH]; cbn; [reflexivity|].
  destruct ev; cbn; try discriminate; exact IH.
Qed.

Lemma accepting_tl ws : accepting (tl ws) = false -> accepting ws = false.
Proof.
  destruct ws as [|w ws]; cbn; [auto|].
  intros ->. apply andb_false_r.
Qed.

Lemma quiet_skipn_false k polls : quiet (skipn k polls) = false -> quiet polls = false.
Proof.
  intros H. destruct (quiet polls) eqn:Q; [|reflexivity].
  rewrite (quiet_skipn k _ Q) in H. discriminate.
Qed.

Lemma ser_write_run b s :
  exists s1 r,
    ser_write b s = Some (s1, r) /\
    trace s1 = trace s ++ [EvWrite b] /\
    open_result s1 = open_result s /\
    polls_left s1 = polls_left s /\
    now s <= now s1 /\
    writes_left s1 = tl (writes_left s) /\
    match r with
    | Ok _ => True
    | Raise _ => accepting (writes_left s) = false
    end.
Proof.
  unfold ser_write. destruct s as [t o w p tr]; cbn.
  destruct w as [|[lag|e] w]; cbn; eexists _, _;
    (split; [reflexivity|]); cbn; repeat split; lia.
Qed.

(** The loop attempts the writes of the first [j] commands, each as
    [wire] gives it; it ends normally after all of them, with the transcript
    of the polls consumed, or raises for one of three causes. *)
Lemma send_commands_run cmds : forall lines s,
  exists s' r evs j,
    send_commands cmds lines s = Some (s', r) /\
    trace s' = trace s ++ evs /\
    forallb is_io_event evs = true /\
    open_result s' = open_result s /\
    now s <= now s' /\
    map Some (writes_of evs) = map wire (firstn j cmds) /\
    match r with
    | Ok lines' =>
        j = List.length cmds /\
        exists k,
          lines' = lines ++ flat_map (poll_lines (u "command")) (firstn k (polls_left s)) /\
          polls_left s' = skipn k (polls_left s)
    | Raise _ =>
        forallb sendable cmds = false \/
        accepting (writes_left s) = false \/
        quiet (polls_left s) = false
    end.
Proof.
  induction cmds as [|cmd rest IH]; intros lines s.
  - exists s, (Ok lines), [], 0%nat. cbn. rewrite !app_nil_r.
    repeat split; try lia. exists 0%nat. cbn. rewrite app_nil_r. auto.
  - cbn [send_commands]. unfold bind at 1, lift at 1.
    destruct (wire cmd) as [b|] eqn:Wr.
    + destruct cmd as [| | |str| |]; try discriminate Wr.
      cbn [str_strip wire] in *. unfold bind at 1, lift at 1, encode. rewrite Wr.
      unfold bind at 1.
      destruct (ser_write_run b s) as (s1 & r1 & W & T1 & O1 & P1 & C1 & W1 & R1).
      rewrite W. destruct r1 as [[]|e].
      * unfold bind at 1.
        destruct (drain_window_run (u "command") lines s1)
          as (s2 & r2 & D & [O2 W2 C2 [evs2 [T2 E2]]] & R2).
        rewrite D. destruct r2 as [lines2|e].
        -- destruct R2 as [_ [k2 [L2 [K2 _]]]].
           destruct (IH lines2 s2) as (s3 & r3 & evs3 & j3 & S3 & T3 & E3 & O3 & C3 & Wr3 & R3).
           exists s3, r3, ([EvWrite b] ++ evs2 ++ evs3), (S j3).
           split; [exact S3|].
           split; [rewrite T3, T2, T1, <- !app_assoc; reflexivity|].
           split; [rewrite !forallb_app, E3, (poll_events_io _ E2); reflexivity|].
           split; [congruence|]. split; [lia|].
           split.
           { rewrite !writes_of_app, (writes_of_polls _ E2). cbn.
             rewrite Wr, Wr3. reflexivity. }
           destruct r3 as [lines3|e3].
           ++ destruct R3 as [J3 [k3 [L3 K3]]]. split; [cbn; lia|].
              exists (k2 + k3)%nat. rewrite P1 in *.
              rewrite K3, K2, skipn_skipn, (Nat.add_comm k3 k2). split; [|reflexivity].
              rewrite L3, L2, K2, <- app_assoc, <- flat_map_app. f_equal. f_equal.
              symmetry. apply firstn_plus.
           ++ destruct R3 as [F|[A|Q]].
              ** left. cbn [forallb]. rewrite F. apply andb_false_r.
              ** right; left. apply accepting_tl. congruence.
              ** right; right. rewrite K2, P1 in Q.
                 eapply quiet_skipn_false; eauto.
        -- exists s2, (Raise e), ([EvWrite b] ++ evs2), 1%nat.
           split; [reflexivity|].
           split; [rewrite T2, T1, <- !app_assoc; reflexivity|].
           split; [rewrite !forallb_app, (poll_events_io _ E2); reflexivity|].
           split; [congruence|]. split; [lia|].
           split.
           { rewrite !writes_of_app, (writes_of_polls _ E2). cbn.
             rewrite Wr. reflexivity. }
           right; right. congruence.
      * exists s1, (Raise e), [EvWrite b], 1%nat.
        split; [reflexivity|]. split; [exact T1|]. split; [reflexivity|].
        split; [exact O1|]. split; [exact C1|].
        split; [cbn; rewrite Wr; reflexivity|].
        right; left. exact R1.
    + assert (NS : sendable cmd = false) by (unfold sendable; rewrite Wr; reflexivity).
      destruct cmd as [| | |str| |]; cbn [str_strip];
        try (eexists s, (Raise _), [], 0%nat; split; [reflexivity|];
             rewrite app_nil_r; repeat split; try lia;
             left; cbn [forallb]; rewrite NS; reflexivity).
      cbn [wire] in Wr. unfold bind at 1, lift at 1, encode. rewrite Wr.
      eexists s, (Raise _), [], 0%nat. split; [reflexivity|].
      rewrite app_nil_r. repeat split; try lia.
      left. cbn [forallb]. rewrite NS. reflexivity.
Qed.

(** *** The handlers, case by case *)

Lemma write_config_dict f s :
  write_config (JObj f) s =
  match f with
  | [] => Some (s, Ok (error_reply 400 (u "No JSON data received")))
  | _ =>
      if truthy (field (u "port") f) && truthy (field (u "baudrate") f)
         && is_not_none (field (u "commands") f)
      then catch (write_config_try (field (u "port") f) (field (u "baudrate") f)
                    (field (u "commands") f))
             (fun e => ret (write_config_except (field (u "port") f) e)) s
      else Some (s, Ok (error_reply 400 (u "Missing port, baudrate, or commands")))
  end.
Proof.
  destruct f as [|kv f]; [reflexivity|].
  unfold write_config. cbn [truthy List.length Nat.eqb negb].
  unfold bind, lift, dict_get.
  destruct (truthy _ && truthy _ && is_not_none _); reflexivity.
Qed.

Lemma save_config_dict f s :
  save_config (JObj f) s =
  match f with
  | [] => Some (s, Ok (error_reply 400 (u "No JSON data received")))
  | _ =>
      if truthy (field (u "port") f) && truthy (field (u "baudrate") f)
      then catch (save_config_try (field (u "port") f) (field (u "baudrate") f))
             (fun e => ret (save_config_except (field (u "port") f) e)) s
      else Some (s, Ok (error_reply 400 (u "Missing port or baudrate")))
  end.
Proof.
  destruct f as [|kv f]; [reflexivity|].
  unfold save_config. cbn [truthy List.length Nat.eqb negb].
  unfold bind, lift, dict_get.
  destruct (truthy _ && truthy _); reflexivity.
Qed.

Lemma opened_now port baudrate s : now (opened port baudrate s) = now s + 100.
Proof. reflexivity. Qed.

Lemma opened_trace port baudrate s :
  trace (opened port baudrate s) = trace s ++ [open_event port baudrate].
Proof. reflexivity. Qed.

Lemma opened_polls port baudrate s : polls_left (opened port baudrate s) = polls_left s.
Proof. reflexivity. Qed.

Lemma opened_writes port baudrate s : writes_left (opened port baudrate s) = writes_left s.
Proof. reflexivity. Qed.

Lemma write_config_try_run port baudrate commands s :
  exists s' r,
    catch (write_config_try port baudrate commands)
      (fun e => ret (write_config_except port e)) s = Some (s', Ok r) /\
    match open_result s with
    | Some e =>
        s' = log (open_event port baudrate) s /\ r = write_config_except port e
    | None =>
        match py_iter commands with
        | Raise e => s' = opened port baudrate s /\ r = write_config_except port e
        | Ok cmds =>
            exists evs j,
              forallb is_io_event evs = true /\
              map Some (writes_of evs) = map wire (firstn j cmds) /\
              now s + 100 <= now s' /\
              ((exists k,
                   r = success_reply (u "Configuration commands sent successfully.")
                         (flat_map (poll_lines (u "command")) (firstn k (polls_left s))) /\
                   j = List.length cmds /\
                   trace s' = trace s ++ open_event port baudrate :: evs ++ [EvClose])
               \/
               (exists e,
                   r = write_config_except port e /\
                   trace s' = trace s ++ open_event port baudrate :: evs /\
                   (forallb sendable cmds = false \/
                    accepting (writes_left s) = false \/
                    quiet (polls_left s) = false)))
        end
    end.
Proof.
  unfold catch, write_config_try. unfold bind at 1. unfold Serial.
  change (EvOpen port baudrate SERIAL_TIMEOUT SERIAL_TIMEOUT)
    with (open_event port baudrate).
  replace (open_result (log (open_event port baudrate) s)) with (open_result s)
    by reflexivity.
  destruct (open_result s) as [e|] eqn:O.
  - eexists _, _. split; [reflexivity|]. split; reflexivity.
  - unfold bind at 1. unfold time_sleep at 1.
    fold (opened port baudrate s).
    unfold bind at 1, lift at 1.
    destruct (py_iter commands) as [cmds|e].
    + unfold bind at 1.
      destruct (send_commands_run cmds [] (opened port baudrate s))
        as (s2 & r2 & evs & j & S2 & T2 & E2 & O2 & C2 & W2 & R2).
      rewrite S2. rewrite opened_now in C2. rewrite opened_trace in T2.
      rewrite opened_polls, opened_writes in R2.
      destruct r2 as [lines|e].
      * unfold bind at 1, ser_close at 1, ret.
        eexists _, _. split; [reflexivity|].
        exists evs, j. split; [exact E2|]. split; [exact W2|].
        split; [exact C2|].
        left. destruct R2 as [J [k [L K]]]. exists k.
        split; [rewrite L; reflexivity|]. split; [exact J|].
        unfold log; cbn [trace]. rewrite T2, <- !app_assoc. reflexivity.
      * unfold ret. eexists _, _. split; [reflexivity|].
        exists evs, j. split; [exact E2|]. split; [exact W2|].
        split; [exact C2|].
        right. exists e. split; [reflexivity|].
        split; [rewrite T2, <- !app_assoc; reflexivity|].
        exact R2.
    + eexists _, _. split; [reflexivity|]. split; reflexivity.
Qed.

Lemma encode_save_command : encode save_command = Ok save_bytes.
Proof. reflexivity. Qed.

Lemma accepting_first ws : accepting (firstn 1 ws) = false -> accepting ws = false.
Proof.
  destruct ws as [|w ws]; cbn; [auto|].
  rewrite andb_true_r. intros ->. reflexivity.
Qed.

Lemma ser_write_first b s e s1 :
  ser_write b s = Some (s1, Raise e) -> accepting (firstn 1 (writes_left s)) = false.
Proof.
  unfold ser_write. destruct s as [t o w p tr]; cbn.
  destruct w as [|[lag|e'] w]; cbn; intros H; inversion H. reflexivity.
Qed.

Lemma save_config_try_run port baudrate s :
  exists s' r,
    catch (save_config_try port baudrate)
      (fun e => ret (save_config_except port e)) s = Some (s', Ok r) /\
    match open_result s with
    | Some e =>
        s' = log (open_event port baudrate) s /\ r = save_config_except port e
    | None =>
        exists s1 rw,
          ser_write save_bytes (opened port baudrate s) = Some (s1, rw) /\
          match rw with
          | Raise e => s' = s1 /\ r = save_config_except port e
          | Ok _ =>
              exists s2 rd,
                drain_window (u "save") [] s1 = Some (s2, rd) /\
                match rd with
                | Raise e => s' = s2 /\ r = save_config_except port e
                | Ok lines =>
                    s' = log EvClose s2 /\
                    r = success_reply
                          (u "Configuration saved to module successfully.") lines
                end
          end
    end.
Proof.
  unfold catch, save_config_try. unfold bind at 1. unfold Serial.
  change (EvOpen port baudrate SERIAL_TIMEOUT SERIAL_TIMEOUT)
    with (open_event port baudrate).
  replace (open_result (log (open_event port baudrate) s)) with (open_result s)
    by reflexivity.
  destruct (open_result s) as [e|] eqn:O.
  - eexists _, _. split; [reflexivity|]. split; reflexivity.
  - unfold bind at 1. unfold time_sleep at 1.
    fold (opened port baudrate s).
    unfold bind at 1, lift at 1. rewrite encode_save_command.
    unfold bind at 1.
    destruct (ser_write_run save_bytes (opened port baudrate s))
      as (s1 & rw & W & _).
    rewrite W. destruct rw as [[]|e].
    + unfold bind at 1.
      destruct (drain_window_run (u "save") [] s1) as (s2 & rd & D & _).
      rewrite D. destruct rd as [lines|e].
      * unfold bind at 1, ser_close at 1, ret.
        eexists _, _. split; [reflexivity|].
        exists s1, (Ok tt). split; [reflexivity|].
        exists s2, (Ok lines). split; [exact D|]. split; reflexivity.
      * unfold ret. eexists _, _. split; [reflexivity|].
        exists s1, (Ok tt). split; [reflexivity|].
        exists s2, (Raise e). split; [exact D|]. split; reflexivity.
    + unfold ret. eexists _, _. split; [reflexivity|].
      exists s1, (Raise e). split; [reflexivity|]. split; reflexivity.
Qed.

Lemma drain_same_run p1 p2 fuel : forall start l1 l2 s,
  same_run (drain p1 fuel start l1 s) (drain p2 fuel start l2 s).
Proof.
  induction fuel as [|fuel IH]; intros start l1 l2 s; [exact I|].
  rewrite !drain_unfold.
  destruct (now s - start <? READ_RESPONSE_DURATION * 1000); [|reflexivity].
  destruct (polls_left s) as [|[lag|e|n r lag] rest]; try apply IH.
  split; reflexivity.
Qed.

(** ** Request validation *)

Lemma field_truthy_nonempty k f : truthy (field k f) = true -> f <> [].
Proof. intros H ->. discriminate H. Qed.

(** C7 (as amended). A [write_config] body that is falsy ([None], an empty
    object) is answered with HTTP 400, status "error" and the message "No
    JSON data received"; a non-empty object in which [port], [baudrate] or
    [commands] is missing or null is answered with HTTP 400, status "error"
    and the message "Missing port, baudrate, or commands".  A truthy body
    that is not an object has no [get]: the [AttributeError] leaves the
    handler and there is no 400.  In all three cases no call is made on the
    serial port: the trace is empty. *)
Theorem write_config_missing_field data d :
  (truthy data = false ->
   serve (write_config data) d
     = Some (Reply (Response 400 (u "error") (u "No JSON data received") None),
             boot d)) /\
  (forall f,
     data = JObj f -> truthy data = true ->
     field (u "port") f = JNull \/ field (u "baudrate") f = JNull \/
     field (u "commands") f = JNull ->
     serve (write_config data) d
       = Some (Reply (Response 400 (u "error")
                        (u "Missing port, baudrate, or commands") None),
               boot d)) /\
  (truthy data = true -> (forall f, data <> JObj f) ->
   exists e,
     serve (write_config data) d = Some (Uncaught e, boot d) /\
     exn_cls e = AttributeError) /\
  trace (boot d) = [].
Proof.
  split; [|split; [|split; [|reflexivity]]].
  - intros F. unfold serve, write_config. rewrite F. reflexivity.
  - intros f -> T H. unfold serve. rewrite write_config_dict.
    destruct f as [|kv f]; [discriminate T|].
    assert (V : truthy (field (u "port") (kv :: f))
                && truthy (field (u "baudrate") (kv :: f))
                && is_not_none (field (u "commands") (kv :: f)) = false).
    { destruct H as [H|[H|H]]; rewrite H; cbn [truthy is_not_none];
        rewrite ?andb_false_r; reflexivity. }
    rewrite V. reflexivity.
  - intros T NO. unfold serve, write_config. rewrite T. cbn [negb].
    destruct data as [|b|z|str|items|f];
      try (eexists; split; reflexivity).
    exfalso. exact (NO f eq_refl).
Qed.

(** C10. Validation looks at truthiness: an object whose [port] is the empty
    string, or whose [baudrate] is 0, is answered with HTTP 400 by both
    handlers without touching the port, although the field is present; an
    empty [commands] list passes validation, so that the handler goes on to
    open the port; a missing or null [commands] is rejected. *)
Theorem validation_by_truthiness f d :
  (field (u "port") f = JStr [] \/ field (u "baudrate") f = JInt 0 ->
   serve (write_config (JObj f)) d
     = Some (Reply (error_reply 400 (u "Missing port, baudrate, or commands")), boot d) /\
   serve (save_config (JObj f)) d
     = Some (Reply (error_reply 400 (u "Missing port or baudrate")), boot d)) /\
  (truthy (field (u "port") f) = true ->
   truthy (field (u "baudrate") f) = true ->
   field (u "commands") f = JArr [] ->
   exists r s tr,
     serve (write_config (JObj f)) d = Some (Reply r, s) /\
     http_status r <> 400 /\
     trace s = open_event (field (u "port") f) (field (u "baudrate") f) :: tr) /\
  (f <> [] -> field (u "commands") f = JNull ->
   serve (write_config (JObj f)) d
     = Some (Reply (error_reply 400 (u "Missing port, baudrate, or commands")), boot d)).
Proof.
  split; [|split].
  - intros H.
    assert (N : f <> []) by (intros ->; destruct H as [H|H]; discriminate H).
    assert (V : truthy (field (u "port") f) && truthy (field (u "baudrate") f) = false)
      by (destruct H as [H|H]; rewrite H; cbn [truthy List.length Nat.eqb Z.eqb negb];
          rewrite ?andb_false_r; reflexivity).
    unfold serve. rewrite write_config_dict, save_config_dict, V.
    destruct f; [congruence|]. split; reflexivity.
  - intros P B C.
    pose proof (field_truthy_nonempty _ _ P) as N.
    unfold serve. rewrite write_config_dict, P, B, C.
    destruct f; [congruence|]. cbn [is_not_none andb].
    destruct (write_config_try_run (field (u "port") (p :: f))
                (field (u "baudrate") (p :: f)) (JArr []) (boot d))
      as (s' & r & E & R).
    rewrite E. cbn [open_result boot trace] in R.
    destruct (dev_open d) as [e|].
    + destruct R as [-> ->]. eexists _, _, _. split; [reflexivity|].
      split; [|reflexivity].
      unfold write_config_except. destruct (is_serial_exception e); cbn; lia.
    + cbn [py_iter] in R. destruct R as (evs & j & _ & _ & _ & R).
      destruct R as [(k & -> & _ & T)|(e & -> & T & _)];
        eexists _, _, _; (split; [reflexivity|]); (split; [|exact T]).
      * cbn; lia.
      * unfold write_config_except. destruct (is_serial_exception e); cbn; lia.
  - intros N C. unfold serve. rewrite write_config_dict, C.
    destruct f; [congruence|]. cbn [is_not_none]. rewrite andb_false_r. reflexivity.
Qed.

(** C9. A valid request with an empty command list, on a port that opens:
    the reply is the 200 success with [received_data] the empty string, and
    the calls on the port are the open and the close, nothing else. *)
Theorem write_config_no_commands f d :
  truthy (field (u "port") f) = true ->
  truthy (field (u "baudrate") f) = true ->
  field (u "commands") f = JArr [] ->
  dev_open d = None ->
  exists s,
    serve (write_config (JObj f)) d
      = Some (Reply (Response 200 (u "success")
                       (u "Configuration commands sent successfully.") (Some [])), s) /\
    trace s = [EvOpen (field (u "port") f) (field (u "baudrate") f) 1 1; EvClose].
Proof.
  intros P B C O.
  pose proof (field_truthy_nonempty _ _ P) as N.
  unfold serve. rewrite write_config_dict, P, B, C.
  destruct f; [congruence|]. cbn [is_not_none andb].
  unfold catch, write_config_try, bind, Serial, lift, py_iter, send_commands.
  cbn [open_result log boot]. rewrite O.
  eexists. split; reflexivity.
Qed.

(** ** Failure to open *)

(** C8 (as amended). When the constructor [serial.Serial] raises, both
    handlers answer at once with HTTP 500 and status "error": the open is
    the only call made on the port, the clock has not moved, no write is
    attempted.  When the exception is a [serial.SerialException] the message
    has the port name between quotes; for any other exception the message is
    the generic one, made of the exception text alone. *)
Theorem open_failure_reply f d e :
  truthy (field (u "port") f) = true ->
  truthy (field (u "baudrate") f) = true ->
  dev_open d = Some e ->
  exists msg_w msg_s s,
    (is_not_none (field (u "commands") f) = true ->
     serve (write_config (JObj f)) d
       = Some (Reply (Response 500 (u "error") msg_w None), s)) /\
    serve (save_config (JObj f)) d
      = Some (Reply (Response 500 (u "error") msg_s None), s) /\
    trace s = [open_event (field (u "port") f) (field (u "baudrate") f)] /\
    now s = dev_clock d /\
    if is_serial_exception e then
      msg_w = u "Failed to open or communicate with serial port '"
                ++ py_str (field (u "port") f) ++ u "'. Error: " ++ exn_text e /\
      msg_s = u "Failed to open or communicate with serial port '"
                ++ py_str (field (u "port") f) ++ u "' for saving. Error: "
                ++ exn_text e
    else
      msg_w = u "An unexpected error occurred: " ++ exn_text e /\
      msg_s = u "An unexpected error occurred: " ++ exn_text e.
Proof.
  intros P B O.
  pose proof (field_truthy_nonempty _ _ P) as N.
  destruct (write_config_try_run (field (u "port") f) (field (u "baudrate") f)
              (field (u "commands") f) (boot d)) as (sw & rw & Ew & Rw).
  destruct (save_config_try_run (field (u "port") f) (field (u "baudrate") f)
              (boot d)) as (ss & rs & Es & Rs).
  cbn [open_result boot] in Rw, Rs. rewrite O in Rw, Rs.
  destruct Rw as [-> ->]. destruct Rs as [-> ->].
  unfold serve. rewrite write_config_dict, save_config_dict, P, B, Ew, Es.
  destruct f; [congruence|]. cbn [andb].
  unfold write_config_except, save_config_except.
  destruct (is_serial_exception e); eexists _, _, _;
    (split; [intros ->; reflexivity|]); repeat split.
Qed.

(** ** Closing the port *)

Lemma closes_app a b : closes (a ++ b) = (closes a + closes b)%nat.
Proof. unfold closes. rewrite filter_app, length_app. reflexivity. Qed.

Lemma closes_io evs : forallb is_io_event evs = true -> closes evs = 0%nat.
Proof.
  unfold closes. induction evs as [|ev evs IH]; cbn; [reflexivity|].
  destruct ev; cbn; try discriminate; exact IH.
Qed.

Lemma save_config_shape port baudrate s :
  open_result s = None ->
  exists s' r evs,
    catch (save_config_try port baudrate)
      (fun e => ret (save_config_except port e)) s = Some (s', Ok r) /\
    forallb is_poll_event evs = true /\
    ((exists k,
         r = success_reply (u "Configuration saved to module successfully.")
               (flat_map (poll_lines (u "save")) (firstn k (polls_left s))) /\
         trace s' = trace s ++ open_event port baudrate :: EvWrite save_bytes
                                 :: evs ++ [EvClose] /\
         now s + 100 + window <= now s')
     \/
     (exists e,
         r = save_config_except port e /\
         trace s' = trace s ++ open_event port baudrate :: EvWrite save_bytes :: evs /\
         (accepting (firstn 1 (writes_left s)) = false \/
          quiet (polls_left s) = false))).
Proof.
  intros O.
  destruct (save_config_try_run port baudrate s) as (s' & r & E & R).
  rewrite O in R. destruct R as (s1 & rw & W & R).
  destruct (ser_write_run save_bytes (opened port baudrate s))
    as (s1' & rw' & W' & T1 & _ & P1 & C1 & _ & _).
  rewrite W in W'. inversion W'; subst s1' rw'; clear W'.
  rewrite opened_trace in T1. rewrite opened_polls in P1. rewrite opened_now in C1.
  destruct rw as [[]|e].
  - destruct R as (s2 & rd & D & R).
    destruct (drain_window_run (u "save") [] s1)
      as (s2' & rd' & D' & [_ _ C2 [evs [T2 E2]]] & R2).
    rewrite D in D'. inversion D'; subst s2' rd'; clear D'.
    exists s', r, evs. split; [exact E|]. split; [exact E2|].
    destruct rd as [lines|e].
    + destruct R as [-> ->]. destruct R2 as [Wd [k [L [K _]]]].
      left. exists k. rewrite P1 in L. split; [rewrite L; reflexivity|].
      split; [|cbn [now log]; lia].
      cbn [trace log]. rewrite T2, T1, <- !app_assoc. reflexivity.
    + destruct R as [-> ->]. right. exists e. split; [reflexivity|].
      split; [rewrite T2, T1, <- !app_assoc; reflexivity|].
      right. congruence.
  - destruct R as [-> ->]. exists s1, (save_config_except port e), [].
    split; [exact E|]. split; [reflexivity|].
    right. exists e. split; [reflexivity|].
    split; [rewrite T1, <- !app_assoc; reflexivity|].
    left. exact (ser_write_first _ _ _ _ W).
Qed.

Lemma write_config_except_status port e :
  is_success (write_config_except port e) = false.
Proof. unfold write_config_except. destruct (is_serial_exception e); reflexivity. Qed.

Lemma save_config_except_status port e :
  is_success (save_config_except port e) = false.
Proof. unfold save_config_except. destruct (is_serial_exception e); reflexivity. Qed.

Lemma closes_open_io port baudrate evs :
  forallb is_io_event evs = true ->
  closes (open_event port baudrate :: evs) = 0%nat.
Proof. intros H. change (closes evs = 0%nat). apply closes_io, H. Qed.

Lemma closes_snoc tr : closes tr = 0%nat -> closes (tr ++ [EvClose]) = 1%nat.
Proof. intros H. rewrite closes_app, H. reflexivity. Qed.

(** Every request is answered, and the calls of [ser.close()] are where the
    source has them: one, as the last call on the port, on the path that
    ends in the 200 success; none on the paths that end in an error reply. *)
Lemma close_only_on_success data d :
  close_discipline (serve (write_config data) d) /\
  close_discipline (serve (save_config data) d).
Proof.
  unfold close_discipline, serve.
  destruct data as [|b|z|str|items|f];
    try (split; eexists _, _; split; reflexivity).
  - destruct b; split; eexists _, _; split; reflexivity.
  - destruct (Z.eq_dec z 0) as [->|NZ].
    + split; eexists _, _; split; reflexivity.
    + unfold write_config, save_config. cbn [truthy].
      destruct (z =? 0) eqn:Z0; [apply Z.eqb_eq in Z0; contradiction|].
      split; eexists _, _; split; reflexivity.
  - destruct str; split; eexists _, _; split; reflexivity.
  - destruct items; split; eexists _, _; split; reflexivity.
  - rewrite write_config_dict, save_config_dict.
    destruct f as [|kv f]; [split; eexists _, _; split; reflexivity|].
    set (port := field (u "port") (kv :: f)).
    set (baudrate := field (u "baudrate") (kv :: f)).
    set (commands := field (u "commands") (kv :: f)).
    split.
    + destruct (truthy port && truthy baudrate && is_not_none commands);
        [|eexists _, _; split; reflexivity].
      destruct (write_config_try_run port baudrate commands (boot d))
        as (s' & r & E & R).
      rewrite E. exists (Reply r), s'. split; [reflexivity|].
      cbn [open_result boot trace polls_left writes_left] in R.
      destruct (dev_open d) as [e|].
      * destruct R as [-> ->]. rewrite write_config_except_status. reflexivity.
      * destruct (py_iter commands) as [cmds|e].
        -- destruct R as (evs & j & Io & _ & _ & [(k & -> & _ & T)|(e & -> & T & _)]).
           ++ cbn [is_success success_reply http_status Z.eqb Pos.eqb].
              cbn [app] in T. rewrite T.
              split; [|exists (open_event port baudrate :: evs); reflexivity].
              change (open_event port baudrate :: evs ++ [EvClose])
                with ((open_event port baudrate :: evs) ++ [EvClose]).
              apply closes_snoc, closes_open_io, Io.
           ++ rewrite write_config_except_status. cbn [app] in T. rewrite T.
              apply closes_open_io, Io.
        -- destruct R as [-> ->]. rewrite write_config_except_status. reflexivity.
    + destruct (truthy port && truthy baudrate);
        [|eexists _, _; split; reflexivity].
      destruct (dev_open d) as [e|] eqn:O.
      * destruct (save_config_try_run port baudrate (boot d)) as (s' & r & E & R).
        cbn [open_result boot] in R. rewrite O in R. destruct R as [-> ->].
        rewrite E.
        exists (Reply (save_config_except port e)),
               (log (open_event port baudrate) (boot d)).
        split; [reflexivity|].
        rewrite save_config_except_status. reflexivity.
      * destruct (save_config_shape port baudrate (boot d))
          as (s' & r & evs & E & Io & R); [exact O|].
        rewrite E. exists (Reply r), s'. split; [reflexivity|].
        cbn [boot trace app] in R.
        assert (Io' : forallb is_io_event (EvWrite save_bytes :: evs) = true)
          by (cbn [forallb is_io_event andb]; apply poll_events_io, Io).
        destruct R as [(k & -> & T & _)|(e & -> & T & _)].
        -- cbn [is_success success_reply http_status Z.eqb Pos.eqb].
           rewrite T.
           split; [|exists (open_event port baudrate :: EvWrite save_bytes :: evs);
                    reflexivity].
           change (open_event port baudrate :: EvWrite save_bytes :: evs ++ [EvClose])
             with ((open_event port baudrate :: EvWrite save_bytes :: evs) ++ [EvClose]).
           apply closes_snoc, closes_open_io, Io'.
        -- rewrite save_config_except_status, T.
           apply closes_open_io, Io'.
Qed.

(** ** The drain window *)


Lemma span_firstn k polls : span (firstn k polls) <= span polls.
Proof.
  revert polls; induction k as [|k IH]; intros [|p rest]; cbn [firstn span];
    try lia.
  - pose proof (span_nonneg (p :: rest)). cbn [span] in *. lia.
  - specialize (IH rest). lia.
Qed.

(** The polls consumed by a window that returns normally go at least as far
    as any prefix of the script that fits in the window. *)
Lemma drain_window_reaches phase lines s head rest :
  polls_left s = head ++ rest ->
  rest <> [] ->
  quiet (polls_left s) = true ->
  span head < window ->
  exists s' k,
    drain_window phase lines s
      = Some (s', Ok (lines ++ flat_map (poll_lines phase) head
                        ++ flat_map (poll_lines phase) (firstn (S k) rest))).
Proof.
  intros E NE Q Sp.
  destruct (drain_window_run phase lines s) as (s' & r & D & _ & R).
  destruct r as [lines'|e]; [|congruence].
  destruct R as [W [k [L [_ N]]]].
  rewrite E in L, N.
  assert (K : (List.length head < k)%nat).
  { destruct (Nat.lt_ge_cases (List.length head) k) as [Lt|Ge]; [exact Lt|exfalso].
    rewrite firstn_app in N.
    replace (k - List.length head)%nat with 0%nat in N by lia.
    rewrite length_app in N.
    destruct rest as [|p rest]; [congruence|]. cbn [List.length] in N.
    replace (k - (List.length head + S (List.length rest)))%nat with 0%nat in N by lia.
    cbn [firstn] in N. rewrite app_nil_r in N.
    pose proof (span_firstn k head). lia. }
  exists s', (k - List.length head - 1)%nat.
  rewrite D, L. do 3 f_equal.
  rewrite firstn_app, flat_map_app.
  rewrite firstn_all2 by lia.
  replace (S (k - List.length head - 1)) with (k - List.length head)%nat by lia.
  reflexivity.
Qed.

(** C3 (as amended). An exception raised by [readline()] during a poll is
    caught and recorded as "Error reading during <phase>: <e>", and the loop
    goes on: a line that the device delivers at a later poll of the same
    window is recorded after the annotation.  An exception raised by
    [in_waiting] is outside the inner [try] and is not covered. *)
Theorem read_error_annotated phase lines s pre n e lag mid m raw lag' post :
  polls_left s
    = pre ++ Data n (ReadRaises e) lag :: mid ++ Data m (ReadLine raw) lag' :: post ->
  quiet (polls_left s) = true ->
  is_unicode_decode_error e = false ->
  span (pre ++ Data n (ReadRaises e) lag :: mid) < READ_RESPONSE_DURATION * 1000 ->
  py_strip (decode_ascii_ignore raw) <> [] ->
  exists s' l1 l2 l3,
    drain_window phase lines s
      = Some (s', Ok (lines ++ l1 ++ [error_annotation phase e] ++ l2
                        ++ [received_annotation (py_strip (decode_ascii_ignore raw))]
                        ++ l3)).
Proof.
  intros E Q U Sp NE.
  destruct (drain_window_reaches phase lines s
              (pre ++ Data n (ReadRaises e) lag :: mid)
              (Data m (ReadLine raw) lag' :: post)) as (s' & k & D);
    [rewrite E, <- app_assoc; reflexivity|discriminate|exact Q|exact Sp|].
  exists s', (flat_map (poll_lines phase) pre), (flat_map (poll_lines phase) mid),
    (flat_map (poll_lines phase) (firstn k post)).
  rewrite D. do 2 f_equal.
  rewrite flat_map_app. cbn [flat_map firstn poll_lines]. rewrite U.
  destruct (py_strip (decode_ascii_ignore raw)) as [|c text]; [congruence|].
  rewrite <- !app_assoc. reflexivity.
Qed.

(** ** Lines that are not ASCII *)

Lemma lstrip_Forall (P : N -> Prop) str : Forall P str -> Forall P (lstrip str).
Proof.
  induction 1 as [|c str Hc H IH]; cbn; [constructor|].
  destruct (py_isspace c); [exact IH|constructor; assumption].
Qed.

Lemma py_strip_Forall (P : N -> Prop) str : Forall P str -> Forall P (py_strip str).
Proof.
  intros H. unfold py_strip, rstrip.
  apply Forall_rev, lstrip_Forall, Forall_rev, lstrip_Forall, H.
Qed.

Lemma decode_ascii_ignore_ascii raw :
  Forall (fun c => (c < 128)%N) (decode_ascii_ignore raw).
Proof.
  unfold decode_ascii_ignore. apply Forall_forall. intros c H.
  apply filter_In in H. apply N.ltb_lt, H.
Qed.

(** ** What goes out on the wire *)

Lemma encode_ascii_spec str : forall b,
  encode_ascii str = Some b ->
  map Byte.to_N b = str /\ Forall (fun c => (c < 128)%N) str.
Proof.
  induction str as [|c str IH]; intros b H; cbn in H.
  - inversion H. split; [reflexivity|constructor].
  - destruct (c <? 128)%N eqn:A; [|discriminate].
    destruct (Byte.of_N c) as [x|] eqn:X; [|discriminate].
    destruct (encode_ascii str) as [bs|]; [|discriminate].
    inversion H; subst b. destruct (IH bs eq_refl) as [M F].
    cbn [map]. rewrite M, (Byte.to_of_N c X).
    split; [reflexivity|]. constructor; [apply N.ltb_lt, A|exact F].
Qed.

Lemma wire_transmitted cmd b : wire cmd = Some b -> transmitted cmd b.
Proof.
  destruct cmd as [| | |str| |]; try discriminate. cbn [wire]. intros H.
  destruct (encode_ascii_spec _ _ H) as [M F].
  exists str. split; [reflexivity|]. split; [exact M|].
  apply Forall_app in F. apply F.
Qed.

Lemma wire_prefix_transmitted : forall sent ws,
  map Some ws = map wire sent -> Forall2 transmitted sent ws.
Proof.
  induction sent as [|cmd sent IH]; intros [|b ws] H; try discriminate H.
  - constructor.
  - cbn [map] in H. inversion H as [[Hb Hrest]].
    constructor; [apply wire_transmitted; congruence|apply IH, Hrest].
Qed.

Lemma writes_of_session port baudrate evs :
  writes_of (open_event port baudrate :: evs ++ [EvClose]) = writes_of evs.
Proof.
  cbn [writes_of open_event]. rewrite writes_of_app. apply app_nil_r.
Qed.

(** The writes of a run are those of an initial segment of the command
    list, each as [transmitted] has it. *)
Lemma write_config_sent_prefix f d cmds :
  field (u "commands") f = JArr cmds ->
  exists r s sent rest,
    serve (write_config (JObj f)) d = Some (Reply r, s) /\
    cmds = sent ++ rest /\
    Forall2 transmitted sent (writes_of (trace s)) /\
    (is_success r = true -> rest = []).
Proof.
  intros C. unfold serve. rewrite write_config_dict.
  assert (Untouched : forall r,
    is_success r = false ->
    exists r' s sent rest,
      Some (Reply r, boot d) = Some (Reply r', s) /\
      cmds = sent ++ rest /\
      Forall2 transmitted sent (writes_of (trace s)) /\
      (is_success r' = true -> rest = [])).
  { intros r F. exists r, (boot d), [], cmds.
    split; [reflexivity|]. split; [reflexivity|]. split; [constructor|].
    congruence. }
  destruct f as [|kv f]; [apply Untouched; reflexivity|].
  set (port := field (u "port") (kv :: f)) in *.
  set (baudrate := field (u "baudrate") (kv :: f)) in *.
  rewrite C.
  destruct (truthy port && truthy baudrate && is_not_none (JArr cmds));
    [|apply Untouched; reflexivity].
  destruct (write_config_try_run port baudrate (JArr cmds) (boot d))
    as (s' & r & E & R).
  rewrite E. cbn [open_result boot trace polls_left writes_left py_iter app] in R.
  destruct (dev_open d) as [e|].
  - destruct R as [-> ->].
    exists (write_config_except port e), (log (open_event port baudrate) (boot d)),
      [], cmds.
    split; [reflexivity|]. split; [reflexivity|]. split; [constructor|].
    rewrite write_config_except_status. congruence.
  - destruct R as (evs & j & Io & W & _ & R).
    exists r, s', (firstn j cmds), (skipn j cmds).
    split; [reflexivity|]. split; [symmetry; apply firstn_skipn|].
    destruct R as [(k & -> & J & T)|(e & -> & T & _)]; rewrite T.
    + split.
      * rewrite writes_of_session.
        apply wire_prefix_transmitted, W.
      * intros _. rewrite J. apply skipn_all.
    + split.
      * cbn [writes_of open_event]. apply wire_prefix_transmitted, W.
      * rewrite write_config_except_status. congruence.
Qed.

(** ** Saving *)

Lemma save_try_same_run port baudrate s :
  same_run (save_config_try port baudrate s)
           (write_config_try port baudrate (JArr [JStr (u "SAVECONFIG")]) s).
Proof.
  unfold save_config_try, write_config_try, send_commands.
  cbv beta iota delta [bind lift Serial time_sleep py_iter str_strip ret ser_close].
  cbn [open_result log].
  destruct (open_result s); [split; reflexivity|].
  change (py_strip (u "SAVECONFIG") ++ CRLF) with save_command.
  rewrite encode_save_command.
  destruct (ser_write save_bytes _) as [[s1 [[]|e]]|];
    [|split; reflexivity|exact I].
  pose proof (drain_same_run (u "save") (u "command") drain_fuel (now s1) [] [] s1) as D.
  rewrite <- !drain_window_eq in D.
  destruct (drain_window (u "save") [] s1) as [[s2 [l2|e2]]|],
           (drain_window (u "command") [] s1) as [[s3 [l3|e3]]|];
    try contradiction; try exact I.
  - cbn in D. subst s3. reflexivity.
  - destruct D as [-> ->]. split; reflexivity.
Qed.


Lemma save_request_fields f :
  field (u "port") ((u "commands", JArr [JStr (u "SAVECONFIG")]) :: f)
    = field (u "port") f /\
  field (u "baudrate") ((u "commands", JArr [JStr (u "SAVECONFIG")]) :: f)
    = field (u "baudrate") f /\
  field (u "commands") ((u "commands", JArr [JStr (u "SAVECONFIG")]) :: f)
    = JArr [JStr (u "SAVECONFIG")].
Proof. repeat split. Qed.

(** The calls on the port and the clock are, for [save_config], those of
    [write_config] given the one command [SAVECONFIG]. *)
Lemma save_config_as_write_config f d :
  option_map snd (serve (save_config (JObj f)) d)
  = option_map snd (serve (write_config (save_request f)) d).
Proof.
  unfold serve, save_request.
  rewrite save_config_dict, write_config_dict.
  destruct (save_request_fields f) as [-> [-> ->]].
  destruct f as [|kv f]; [reflexivity|].
  set (port := field (u "port") (kv :: f)).
  set (baudrate := field (u "baudrate") (kv :: f)).
  cbn [is_not_none]. rewrite andb_true_r.
  destruct (truthy port && truthy baudrate); [|reflexivity].
  pose proof (save_try_same_run port baudrate (boot d)) as R.
  unfold catch, ret.
  destruct (save_config_try port baudrate (boot d)) as [[s1 [r1|e1]]|],
           (write_config_try port baudrate (JArr [JStr (u "SAVECONFIG")]) (boot d))
             as [[s2 [r2|e2]]|];
    try contradiction; cbn in R |- *.
  - congruence.
  - destruct R; congruence.
  - reflexivity.
Qed.

(** [save_config], with line 116 read as a statement of its body.  A valid
    request on a port that opens, takes the write and answers the polls:
    there is exactly one write, of the twelve bytes
    of "SAVECONFIG" followed by CR LF; it is followed by one drain window
    ([drain_window] run once, on the state [s1] the write leaves), which
    lasts at least [READ_RESPONSE_DURATION]; the calls on the port are the
    open, the write, the polls of that window and the close, in this order;
    and the port and the clock end up as [write_config] leaves them when
    given the single command [SAVECONFIG]. *)
Lemma save_config_single_write f d :
  truthy (field (u "port") f) = true ->
  truthy (field (u "baudrate") f) = true ->
  dev_open d = None ->
  accepting (firstn 1 (dev_writes d)) = true ->
  quiet (dev_polls d) = true ->
  exists s1 s2 lines polls,
    ser_write save_bytes
      (opened (field (u "port") f) (field (u "baudrate") f) (boot d))
      = Some (s1, Ok tt) /\
    drain_window (u "save") [] s1 = Some (s2, Ok lines) /\
    serve (save_config (JObj f)) d
      = Some (Reply (success_reply (u "Configuration saved to module successfully.")
                       lines),
              log EvClose s2) /\
    trace (log EvClose s2)
      = [open_event (field (u "port") f) (field (u "baudrate") f);
         EvWrite save_bytes] ++ polls ++ [EvClose] /\
    forallb is_poll_event polls = true /\
    writes_of (trace (log EvClose s2)) = [save_bytes] /\
    map Byte.to_N save_bytes = u "SAVECONFIG" ++ [13; 10]%N /\
    READ_RESPONSE_DURATION * 1000 <= now s2 - now s1 /\
    option_map snd (serve (write_config (save_request f)) d) = Some (log EvClose s2).
Proof.
  intros P B O A Q.
  pose proof (field_truthy_nonempty _ _ P) as N.
  set (port := field (u "port") f) in *.
  set (baudrate := field (u "baudrate") f) in *.
  destruct (save_config_try_run port baudrate (boot d)) as (s' & r & E & R).
  cbn [open_result boot] in R. rewrite O in R.
  destruct R as (s1 & rw & W & R).
  destruct (ser_write_run save_bytes (opened port baudrate (boot d)))
    as (s1' & rw' & W' & T1 & _ & P1 & _ & _ & _).
  rewrite W in W'. inversion W'; subst s1' rw'; clear W'.
  destruct rw as [[]|e];
    [|pose proof (ser_write_first _ _ _ _ W) as F;
      rewrite opened_writes in F; cbn [writes_left boot] in F; congruence].
  destruct R as (s2 & rd & D & R).
  destruct (drain_window_run (u "save") [] s1)
    as (s2' & rd' & D' & [_ _ _ [polls [T2 E2]]] & R2).
  rewrite D in D'. inversion D'; subst s2' rd'; clear D'.
  rewrite P1, opened_polls in R2. cbn [polls_left boot] in R2.
  destruct rd as [lines|e]; [|congruence].
  destruct R as [-> ->]. destruct R2 as [Wd _].
  assert (S : serve (save_config (JObj f)) d
              = Some (Reply (success_reply
                               (u "Configuration saved to module successfully.") lines),
                      log EvClose s2)).
  { unfold serve. rewrite save_config_dict.
    destruct f as [|kv f]; [congruence|].
    fold port baudrate. rewrite P, B. cbn [andb]. rewrite E. reflexivity. }
  assert (T : trace (log EvClose s2)
              = [open_event port baudrate; EvWrite save_bytes] ++ polls ++ [EvClose]).
  { cbn [trace log]. rewrite T2, T1, opened_trace. cbn [boot trace app].
    reflexivity. }
  exists s1, s2, lines, polls.
  split; [exact W|]. split; [exact D|]. split; [exact S|].
  split; [exact T|]. split; [exact E2|].
  split; [rewrite T; cbn [app writes_of open_event];
          rewrite writes_of_app, (writes_of_polls _ E2); reflexivity|].
  split; [reflexivity|]. split; [exact Wd|].
  rewrite <- save_config_as_write_config, S. reflexivity.
Qed.

End Handlers.

(** ** Concrete runs *)

Lemma starts_with_app needle post : starts_with needle (needle ++ post) = true.
Proof.
  induction needle as [|c needle IH]; [reflexivity|].
  cbn. rewrite N.eqb_refl. exact IH.
Qed.

Lemma contains_intro needle pre post : contains needle (pre ++ needle ++ post) = true.
Proof.
  induction pre as [|c pre IH].
  - cbn [app]. destruct (needle ++ post) eqn:E;
      cbn [contains]; rewrite <- E, starts_with_app; reflexivity.
  - cbn [app contains]. rewrite IH. apply orb_true_r.
Qed.

Lemma write_config_missing_field_witness :
  serve (write_config sample_repr sample_error_text JNull) dev_idle
    = Some (Reply (Response 400 (u "error") (u "No JSON data received") None),
            boot dev_idle) /\
  serve (write_config sample_repr sample_error_text
           (JObj [(u "port", JStr usb0)])) dev_idle
    = Some (Reply (Response 400 (u "error")
                     (u "Missing port, baudrate, or commands") None),
            boot dev_idle) /\
  (exists e,
     serve (write_config sample_repr sample_error_text (JStr (u "port"))) dev_idle
       = Some (Uncaught e, boot dev_idle) /\
     exn_cls e = AttributeError).
Proof.
  split; [|split].
  - apply (proj1 (write_config_missing_field sample_repr sample_error_text
                    JNull dev_idle)).
    reflexivity.
  - apply (proj1 (proj2 (write_config_missing_field sample_repr sample_error_text
                           (JObj [(u "port", JStr usb0)]) dev_idle))
             [(u "port", JStr usb0)]).
    + reflexivity.
    + reflexivity.
    + right; left; reflexivity.
  - apply (proj1 (proj2 (proj2 (write_config_missing_field
                                  sample_repr sample_error_text
                                  (JStr (u "port")) dev_idle)))).
    + reflexivity.
    + intros f. discriminate.
Defined.

(** C7, counterexample. The body is the list [[1]]: it has no [port], no
    [baudrate] and no [commands], and the request does not end in a 400
    reply but in the [AttributeError] of [data.get]. *)
Lemma list_body_is_not_rejected :
  serve (write_config sample_repr sample_error_text (JArr [JInt 1])) dev_idle
    = Some (Uncaught (Exn AttributeError
                        (sample_error_text AttributeError (JArr [JInt 1]))),
            St 0 None [] [] []).
Proof. reflexivity. Qed.

Lemma validation_by_truthiness_witness :
  serve (write_config sample_repr sample_error_text
           (JObj [(u "port", JStr []); (u "baudrate", JInt 9600);
                  (u "commands", JArr [])])) dev_idle
    = Some (Reply (error_reply 400 (u "Missing port, baudrate, or commands")),
            boot dev_idle) /\
  serve (save_config sample_repr sample_error_text
           (JObj [(u "port", JStr usb0); (u "baudrate", JInt 0)])) dev_idle
    = Some (Reply (error_reply 400 (u "Missing port or baudrate")), boot dev_idle) /\
  exists r s tr,
    serve (write_config sample_repr sample_error_text (JObj (request 9600 []))) dev_idle
      = Some (Reply r, s) /\
    http_status r <> 400 /\
    trace s = open_event (JStr usb0) (JInt 9600) :: tr.
Proof.
  split; [|split].
  - apply (proj1 (validation_by_truthiness sample_repr sample_error_text
                    [(u "port", JStr []); (u "baudrate", JInt 9600);
                     (u "commands", JArr [])] dev_idle)).
    left; reflexivity.
  - apply (proj1 (validation_by_truthiness sample_repr sample_error_text
                    [(u "port", JStr usb0); (u "baudrate", JInt 0)] dev_idle)).
    right; reflexivity.
  - apply (proj1 (proj2 (validation_by_truthiness sample_repr sample_error_text
                           (request 9600 []) dev_idle))); reflexivity.
Defined.

Lemma write_config_no_commands_witness :
  exists s,
    serve (write_config sample_repr sample_error_text (JObj (request 115200 [])))
      dev_idle
      = Some (Reply (Response 200 (u "success")
                       (u "Configuration commands sent successfully.") (Some [])), s) /\
    trace s = [EvOpen (JStr usb0) (JInt 115200) 1 1; EvClose].
Proof.
  apply (write_config_no_commands sample_repr sample_error_text
           (request 115200 []) dev_idle); reflexivity.
Defined.

Lemma open_failure_reply_witness :
  exists msg_w msg_s s,
    (is_not_none (JArr []) = true ->
     serve (write_config sample_repr sample_error_text (JObj (request 115200 [])))
       dev_missing
       = Some (Reply (Response 500 (u "error") msg_w None), s)) /\
    serve (save_config sample_repr sample_error_text (JObj (request 115200 [])))
      dev_missing
      = Some (Reply (Response 500 (u "error") msg_s None), s) /\
    trace s = [open_event (JStr usb0) (JInt 115200)] /\
    now s = 0 /\
    msg_w = u "Failed to open or communicate with serial port '" ++ usb0
              ++ u "'. Error: " ++ u "could not open port" /\
    msg_s = u "Failed to open or communicate with serial port '" ++ usb0
              ++ u "' for saving. Error: " ++ u "could not open port".
Proof.
  exact (open_failure_reply sample_repr sample_error_text (request 115200 [])
           dev_missing (Exn SerialException (u "could not open port"))
           eq_refl eq_refl eq_refl).
Defined.

(** C8, counterexample. The port name is a string, the baud rate is -1 and
    the constructor raises a [ValueError]: the reply is the 500, and its
    message does not contain the port name. *)
Lemma open_failure_without_port_name :
  serve (write_config sample_repr sample_error_text (JObj (request (-1) [])))
    dev_bad_baudrate
    = Some (Reply (Response 500 (u "error")
                     (u "An unexpected error occurred: Not a valid baudrate: -1") None),
            St 0 (dev_open dev_bad_baudrate) [] [] [EvOpen (JStr usb0) (JInt (-1)) 1 1])
  /\ ~ exists pre post,
        u "An unexpected error occurred: Not a valid baudrate: -1"
          = pre ++ usb0 ++ post.
Proof.
  split; [reflexivity|].
  intros (pre & post & E).
  pose proof (contains_intro usb0 pre post) as C.
  rewrite <- E in C. vm_compute in C. discriminate C.
Qed.


(** C3, counterexample. [in_waiting] raises at the first poll after the
    write: nothing is annotated, the window is not observed (the clock is
    still at the 100 ms of the pause after the open), the request is
    answered with the 500. *)
Lemma in_waiting_error_aborts :
  serve (write_config sample_repr sample_error_text
           (JObj (request 115200 [JStr (u "MODE ROVER")]))) dev_unplugged
    = Some (Reply (Response 500 (u "error")
                     (u "An unexpected error occurred: [Errno 5] Input/output error")
                     None),
            St 100 None [] []
               [EvOpen (JStr usb0) (JInt 115200) 1 1;
                EvWrite (ascii_bytes "MODE ROVER" ++ [x0d; x0a]);
                EvInWaiting]).
Proof. reflexivity. Qed.

(** C2. The first line read is the two bytes FF FE and a line feed, which
    cannot be decoded as ASCII text; the second is FF followed by "OK".  The
    request succeeds and its transcript is the single line "Received: OK":
    the binary-data annotation was recorded for neither. *)
Lemma binary_line_not_annotated :
  option_map fst
    (serve (write_config sample_repr sample_error_text
              (JObj (request 115200 [JStr (u "MODE ROVER")]))) dev_binary)
    = Some (Reply (Response 200 (u "success")
                     (u "Configuration commands sent successfully.")
                     (Some (u "Received: OK"))))
  /\ contains binary_annotation (u "Received: OK") = false.
Proof. split; vm_compute; reflexivity. Qed.



Lemma read_error_annotated_witness :
  exists s' l1 l2 l3,
    drain_window (u "command") [] (boot dev_glitch)
      = Some (s', Ok ([] ++ l1
                        ++ [error_annotation (u "command")
                              (Exn SerialException (u "read failed"))]
                        ++ l2
                        ++ [received_annotation
                              (py_strip (decode_ascii_ignore (ascii_bytes "OK")))]
                        ++ l3)).
Proof.
  apply (read_error_annotated (u "command") [] (boot dev_glitch)
           [Idle 0] 1 (Exn SerialException (u "read failed")) 5
           [Idle 2] 4 (ascii_bytes "OK") 0 []).
  - reflexivity.
  - reflexivity.
  - reflexivity.
  - reflexivity.
  - vm_compute. discriminate.
Defined.

Lemma save_config_single_write_witness :
  exists s1 s2 lines polls,
    ser_write save_bytes (opened (JStr usb0) (JInt 115200) (boot dev_binary))
      = Some (s1, Ok tt) /\
    drain_window (u "save") [] s1 = Some (s2, Ok lines) /\
    serve (save_config sample_repr sample_error_text
             (JObj [(u "port", JStr usb0); (u "baudrate", JInt 115200)])) dev_binary
      = Some (Reply (success_reply (u "Configuration saved to module successfully.")
                       lines),
              log EvClose s2) /\
    trace (log EvClose s2)
      = [open_event (JStr usb0) (JInt 115200); EvWrite save_bytes]
          ++ polls ++ [EvClose] /\
    forallb is_poll_event polls = true /\
    writes_of (trace (log EvClose s2)) = [save_bytes] /\
    map Byte.to_N save_bytes = u "SAVECONFIG" ++ [13; 10]%N /\
    READ_RESPONSE_DURATION * 1000 <= now s2 - now s1 /\
    option_map snd
      (serve (write_config sample_repr sample_error_text
                (save_request [(u "port", JStr usb0); (u "baudrate", JInt 115200)]))
         dev_binary)
      = Some (log EvClose s2).
Proof.
  apply (save_config_single_write sample_repr sample_error_text
           [(u "port", JStr usb0); (u "baudrate", JInt 115200)] dev_binary);
    reflexivity.
Defined.

(** * Further properties of the handlers *)

(** ** Stripping, encoding and decoding *)

Lemma lstrip_split str :
  exists pre, str = pre ++ lstrip str /\ forallb py_isspace pre = true.
Proof.
  induction str as [|c str IH]; [exists []; split; reflexivity|].
  cbn [lstrip]. destruct (py_isspace c) eqn:C.
  - destruct IH as (pre & E & P). exists (c :: pre). cbn [app forallb].
    rewrite C, P, <- E. split; reflexivity.
  - exists []. split; reflexivity.
Qed.

Lemma lstrip_head str c rest : lstrip str = c :: rest -> py_isspace c = false.
Proof.
  induction str as [|x str IH]; cbn [lstrip]; [discriminate|].
  destruct (py_isspace x) eqn:X; [exact IH|].
  intros H. inversion H; subst. exact X.
Qed.

Lemma lstrip_idem str : lstrip (lstrip str) = lstrip str.
Proof.
  destruct (lstrip str) as [|c rest] eqn:E; [reflexivity|].
  cbn [lstrip]. rewrite (lstrip_head _ _ _ E). reflexivity.
Qed.

Lemma lstrip_spaces ws str : forallb py_isspace ws = true -> lstrip (ws ++ str) = lstrip str.
Proof.
  induction ws as [|c ws IH]; cbn [app forallb lstrip]; [reflexivity|].
  intros H. apply andb_true_iff in H. destruct H as [C W].
  rewrite C. apply IH, W.
Qed.

Lemma forallb_rev {A} (p : A -> bool) l : forallb p (rev l) = forallb p l.
Proof.
  induction l as [|x l IH]; [reflexivity|].
  cbn [rev forallb]. rewrite forallb_app, IH. cbn [forallb].
  rewrite andb_true_r. apply andb_comm.
Qed.

Lemma rstrip_split str :
  exists post, str = rstrip str ++ post /\ forallb py_isspace post = true.
Proof.
  unfold rstrip. destruct (lstrip_split (rev str)) as (pre & E & P).
  exists (rev pre). rewrite forallb_rev. split; [|exact P].
  rewrite <- rev_app_distr, <- E, rev_involutive. reflexivity.
Qed.

Lemma rstrip_last str c rest : rstrip str = rest ++ [c] -> py_isspace c = false.
Proof.
  unfold rstrip. intros H. apply (f_equal (@rev N)) in H.
  rewrite rev_involutive, rev_app_distr in H. cbn [rev app] in H.
  exact (lstrip_head _ _ _ H).
Qed.

Lemma rstrip_idem str : rstrip (rstrip str) = rstrip str.
Proof. unfold rstrip. rewrite rev_involutive, lstrip_idem. reflexivity. Qed.

Lemma rstrip_spaces str ws : forallb py_isspace ws = true -> rstrip (str ++ ws) = rstrip str.
Proof.
  intros W. unfold rstrip. rewrite rev_app_distr, lstrip_spaces; [reflexivity|].
  rewrite forallb_rev. exact W.
Qed.

Lemma rstrip_head str c rest : rstrip str = c :: rest -> exists rest', str = c :: rest'.
Proof.
  intros H. destruct (rstrip_split str) as (post & E & _).
  rewrite H in E. exists (rest ++ post). exact E.
Qed.

Lemma py_strip_head str c rest : py_strip str = c :: rest -> py_isspace c = false.
Proof.
  unfold py_strip. intros H.
  destruct (rstrip_head _ _ _ H) as (rest' & E).
  exact (lstrip_head _ _ _ E).
Qed.

(** X9. [s.strip()] removes a prefix and a suffix made of whitespace and
    nothing else: the text in between is kept as it is, and it neither
    starts nor ends with whitespace. *)
Theorem py_strip_spec str :
  exists pre post,
    str = pre ++ py_strip str ++ post /\
    forallb py_isspace pre = true /\
    forallb py_isspace post = true /\
    (forall c rest, py_strip str = c :: rest -> py_isspace c = false) /\
    (forall c rest, py_strip str = rest ++ [c] -> py_isspace c = false).
Proof.
  destruct (lstrip_split str) as (pre & E1 & P1).
  destruct (rstrip_split (lstrip str)) as (post & E2 & P2).
  exists pre, post. fold (py_strip str) in E2.
  split; [rewrite <- E2; exact E1|]. split; [exact P1|]. split; [exact P2|].
  split.
  - intros c rest. apply py_strip_head.
  - intros c rest. unfold py_strip. apply rstrip_last.
Qed.

Lemma py_strip_crlf str : py_strip (py_strip str ++ CRLF) = py_strip str.
Proof.
  destruct (py_strip str) as [|c rest] eqn:E; [reflexivity|].
  pose proof (py_strip_head _ _ _ E) as C.
  unfold py_strip at 1. cbn [app lstrip]. rewrite C.
  change (c :: rest ++ CRLF) with ((c :: rest) ++ CRLF).
  rewrite rstrip_spaces by reflexivity.
  rewrite <- E. unfold py_strip. apply rstrip_idem.
Qed.

Lemma decode_encode_ascii str b :
  encode_ascii str = Some b -> decode_ascii_ignore b = str.
Proof.
  intros H. destruct (encode_ascii_spec str b H) as [M F].
  unfold decode_ascii_ignore. rewrite M.
  apply forallb_filter_id. apply forallb_forall. intros c Hc.
  rewrite Forall_forall in F. apply N.ltb_lt, F, Hc.
Qed.

(** X11. A device that echoes a command back, byte for byte as it was
    written, gets it recorded as "Received: " followed by the stripped
    command: encoding, lenient decoding and the second strip undo one
    another, and the loop goes on to the next poll.  The command has no line
    feed inside, so that its echo is one line for [readline()]. *)
Theorem echo_recorded phase fuel start lines s n b lag rest str :
  polls_left s = Data n (ReadLine b) lag :: rest ->
  wire (JStr str) = Some b ->
  one_line b = true ->
  py_strip str <> [] ->
  now s - start < READ_RESPONSE_DURATION * 1000 ->
  drain phase (S fuel) start lines s
    = drain phase fuel start (lines ++ [received_annotation (py_strip str)])
        (St (now s + Z.of_N lag + 10) (open_result s) (writes_left s) rest
            (trace s ++ [EvInWaiting; EvReadline])).
Proof.
  intros P W _ NE T. rewrite drain_unfold.
  apply Z.ltb_lt in T. rewrite T. unfold after_poll. rewrite P.
  cbn [head_lines poll_lines poll_lag poll_events wire] in *.
  rewrite (decode_encode_ascii _ _ W), py_strip_crlf.
  destruct (py_strip str); [congruence|reflexivity].
Qed.

(** ** More on the drain loop *)

Lemma polls_made_app a b : polls_made (a ++ b) = (polls_made a + polls_made b)%nat.
Proof. unfold polls_made. rewrite filter_app, length_app. reflexivity. Qed.

Lemma after_poll_one_check s :
  exists evs, trace (after_poll s) = trace s ++ evs /\ polls_made evs = 1%nat.
Proof.
  unfold after_poll.
  destruct (polls_left s) as [|[lag|e|n r lag] rest]; cbn [trace];
    eexists; split; reflexivity.
Qed.

Lemma drain_checks phase fuel : forall start lines s s' r,
  drain phase fuel start lines s = Some (s', r) ->
  exists evs,
    trace s' = trace s ++ evs /\
    10 * Z.of_nat (polls_made evs) <= Z.max 0 (window - (now s - start) + 9).
Proof.
  induction fuel as [|fuel IH]; intros start lines s s' r D; [discriminate D|].
  rewrite drain_unfold in D. fold window in D.
  destruct (now s - start <? window) eqn:T.
  - apply Z.ltb_lt in T.
    destruct (after_poll_one_check s) as (ev1 & T1 & C1).
    pose proof (after_poll_clock s) as C.
    destruct (polls_left s) as [|p rest] eqn:E.
    + destruct (IH _ _ _ _ _ D) as (evs & T2 & C2).
      exists (ev1 ++ evs). rewrite T2, T1, app_assoc. split; [reflexivity|].
      rewrite polls_made_app, C1. lia.
    + destruct (poll_raises p) eqn:PR.
      * destruct p; try discriminate PR. inversion D; subst.
        exists ev1. split; [exact T1|]. rewrite C1. lia.
      * specialize (C eq_refl). pose proof (poll_lag_nonneg p).
        assert (D' : drain phase fuel start (lines ++ head_lines phase (p :: rest))
                       (after_poll s) = Some (s', r))
          by (destruct p; try discriminate PR; exact D).
        destruct (IH _ _ _ _ _ D') as (evs & T2 & C2).
        exists (ev1 ++ evs). rewrite T2, T1, app_assoc. split; [reflexivity|].
        rewrite polls_made_app, C1. lia.
  - inversion D; subst. exists []. rewrite app_nil_r. split; [reflexivity|].
    cbn. lia.
Qed.

(** X8. A drain window reads [ser.in_waiting] at most 201 times, whatever
    the device does: every pass of the loop sleeps 10 ms, so the loop cannot
    spin.  (200 passes fill the window; the bound leaves room for the one
    more pass that a test falling exactly on the end of the window can
    give in the source.) *)
Theorem drain_window_poll_bound phase lines s :
  exists s' r evs,
    drain_window phase lines s = Some (s', r) /\
    trace s' = trace s ++ evs /\
    (polls_made evs <= 201)%nat.
Proof.
  destruct (drain_window_run phase lines s) as (s' & r & D & _).
  pose proof D as D0. rewrite drain_window_eq in D0.
  destruct (drain_checks _ _ _ _ _ _ _ D0) as (evs & T & C).
  exists s', r, evs. split; [exact D|]. split; [exact T|].
  unfold window, READ_RESPONSE_DURATION in C. lia.
Qed.

Lemma drain_raises phase e post : forall pre fuel start lines s,
  polls_left s = pre ++ WaitingRaises e :: post ->
  quiet pre = true ->
  now s - start + span pre < window ->
  (List.length pre < fuel)%nat ->
  drain phase fuel start lines s
    = Some (log EvInWaiting (after_polls pre post s), Raise e).
Proof.
  induction pre as [|p pre IH]; intros fuel start lines s P Q T F;
    (destruct fuel as [|fuel]; [cbn in F; lia|]);
    rewrite drain_unfold; fold window; cbn [span] in T.
  - replace (now s - start <? window) with true by (symmetry; apply Z.ltb_lt; lia).
    unfold after_poll. rewrite P. cbn [app].
    unfold log, after_polls.
    cbn [span flat_map now open_result writes_left polls_left trace].
    rewrite Z.add_0_r, app_nil_r. reflexivity.
  - pose proof (span_nonneg pre) as SP. pose proof (poll_lag_nonneg p) as LP.
    replace (now s - start <? window) with true by (symmetry; apply Z.ltb_lt; lia).
    unfold quiet in Q. cbn [forallb] in Q. apply andb_true_iff in Q.
    destruct Q as [Qp Q]. apply negb_true_iff in Qp.
    assert (A : after_poll s
                = St (now s + poll_lag p + 10) (open_result s) (writes_left s)
                     (pre ++ WaitingRaises e :: post) (trace s ++ poll_events p)).
    { unfold after_poll. rewrite P. cbn [app].
      destruct p; try discriminate Qp; reflexivity. }
    rewrite P. cbn [app].
    transitivity (drain phase fuel start
                    (lines ++ head_lines phase (p :: pre ++ WaitingRaises e :: post))
                    (after_poll s));
      [destruct p; try discriminate Qp; reflexivity|].
    rewrite (IH fuel start _ (after_poll s)).
    + rewrite A. unfold log, after_polls.
      cbn [span flat_map now open_result writes_left polls_left trace].
      rewrite <- !app_assoc. do 3 f_equal. lia.
    + rewrite A. reflexivity.
    + exact Q.
    + rewrite A. cbn [now]. lia.
    + cbn [List.length] in F. lia.
Qed.

(** X13. When [ser.in_waiting] raises at a poll that falls inside the
    window, the loop is left at once by that exception: the lines collected
    so far are not returned, the clock stands where the polls before it left
    it, and the rest of the script has not been consumed. *)
Theorem drain_window_in_waiting_raises phase lines s pre e post :
  polls_left s = pre ++ WaitingRaises e :: post ->
  quiet pre = true ->
  span pre < READ_RESPONSE_DURATION * 1000 ->
  drain_window phase lines s
    = Some (log EvInWaiting (after_polls pre post s), Raise e).
Proof.
  intros P Q T. rewrite drain_window_eq.
  unfold READ_RESPONSE_DURATION in T.
  apply drain_raises;
    [exact P|exact Q|unfold window, READ_RESPONSE_DURATION; lia|].
  pose proof (span_length pre). unfold drain_fuel. lia.
Qed.

(** ** More on the command loop and the handlers *)

Lemma py_strip_blank str : forallb py_isspace str = true -> py_strip str = [].
Proof.
  intros H. unfold py_strip.
  rewrite <- (app_nil_r str), (lstrip_spaces str [] H). reflexivity.
Qed.

Lemma accepting_firstn_S n ws :
  accepting (firstn (S n) ws) = true ->
  accepting (firstn 1 ws) = true /\ accepting (firstn n (tl ws)) = true.
Proof.
  destruct ws as [|w ws]; cbn [firstn tl accepting forallb].
  - rewrite firstn_nil. split; reflexivity.
  - intros H. apply andb_true_iff in H. destruct H as [W R].
    rewrite W. split; [reflexivity|exact R].
Qed.

Lemma skipn_S_tl {A} n (l : list A) : skipn (S n) l = skipn n (tl l).
Proof. destruct l; [cbn [tl]; rewrite !skipn_nil; reflexivity|reflexivity]. Qed.

Section More.

Variable py_repr : json -> pystr.
Variable py_error_text : exn_class -> json -> pystr.

Local Abbreviation write_config' := (write_config py_repr py_error_text).
Local Abbreviation save_config' := (save_config py_repr py_error_text).
Local Abbreviation send_commands' := (send_commands py_error_text).
Local Abbreviation write_config_except' := (write_config_except py_repr).
Local Abbreviation save_config_except' := (save_config_except py_repr).

(** Commands that can be sent, on a device that takes their writes and
    answers the polls, are all sent, each followed by its window; the loop
    then goes on with the commands that follow. *)
Lemma send_commands_prefix rest : forall pre lines s,
  forallb sendable pre = true ->
  accepting (firstn (List.length pre) (writes_left s)) = true ->
  quiet (polls_left s) = true ->
  exists s' k evs,
    send_commands' (pre ++ rest) lines s
      = send_commands' rest
          (lines ++ flat_map (poll_lines (u "command")) (firstn k (polls_left s))) s' /\
    trace s' = trace s ++ evs /\
    forallb is_io_event evs = true /\
    map Some (writes_of evs) = map wire pre /\
    open_result s' = open_result s /\
    writes_left s' = skipn (List.length pre) (writes_left s) /\
    polls_left s' = skipn k (polls_left s) /\
    now s + window * Z.of_nat (List.length pre) <= now s'.
Proof.
  induction pre as [|cmd pre IH]; intros lines s Se A Q.
  - exists s, 0%nat, []. cbn [app firstn flat_map skipn List.length writes_of map].
    rewrite !app_nil_r. repeat split; try reflexivity. lia.
  - cbn [forallb] in Se. apply andb_true_iff in Se. destruct Se as [Sc Se].
    unfold sendable in Sc. destruct (wire cmd) as [b|] eqn:Wr; [|discriminate].
    destruct cmd as [| | |str| |]; try discriminate Wr. cbn [wire] in Wr.
    cbn [List.length] in A. destruct (accepting_firstn_S _ _ A) as [A1 A2].
    cbn [app send_commands]. unfold bind at 1, lift at 1. cbn [str_strip].
    unfold bind at 1, lift at 1, encode. rewrite Wr. unfold bind at 1.
    destruct (ser_write_run b s) as (s1 & r1 & W & T1 & O1 & P1 & C1 & W1 & _).
    destruct r1 as [[]|e];
      [|rewrite (ser_write_first _ _ _ _ W) in A1; discriminate].
    rewrite W. unfold bind at 1.
    destruct (drain_window_run (u "command") lines s1)
      as (s2 & r2 & D & [O2 W2 C2 [evs2 [T2 E2]]] & R2).
    rewrite P1 in R2. destruct r2 as [lines2|e]; [|congruence].
    destruct R2 as [Wd [k2 [L2 [K2 _]]]]. rewrite D.
    destruct (IH lines2 s2) as (s' & k3 & evs3 & S3 & T3 & E3 & Wr3 & O3 & W3 & K3 & C3);
      [exact Se|rewrite W2, W1; exact A2|rewrite K2; apply quiet_skipn, Q|].
    exists s', (k2 + k3)%nat, ([EvWrite b] ++ evs2 ++ evs3).
    split.
    { rewrite S3, L2, K2, <- app_assoc, <- flat_map_app, <- firstn_plus. reflexivity. }
    split; [rewrite T3, T2, T1, <- !app_assoc; reflexivity|].
    split; [rewrite !forallb_app, E3, (poll_events_io _ E2); reflexivity|].
    split.
    { rewrite !writes_of_app, (writes_of_polls _ E2). cbn [writes_of app map wire].
      rewrite Wr, Wr3. reflexivity. }
    split; [congruence|].
    split; [rewrite W3, W2, W1; cbn [List.length]; symmetry; apply skipn_S_tl|].
    split; [rewrite K3, K2, skipn_skipn, (Nat.add_comm k3 k2); reflexivity|].
    cbn [List.length]. lia.
Qed.

Lemma write_config_except_http port e :
  http_status (write_config_except' port e) = 500 /\
  status (write_config_except' port e) = u "error" /\
  received_data (write_config_except' port e) = None.
Proof. unfold write_config_except. destruct (is_serial_exception e); repeat split. Qed.

Lemma save_config_except_http port e :
  http_status (save_config_except' port e) = 500 /\
  status (save_config_except' port e) = u "error" /\
  received_data (save_config_except' port e) = None.
Proof. unfold save_config_except. destruct (is_serial_exception e); repeat split. Qed.

(** [write_config] once the body is accepted and the port is open. *)
Lemma write_config_opened f d cmds :
  truthy (field (u "port") f) = true ->
  truthy (field (u "baudrate") f) = true ->
  field (u "commands") f = JArr cmds ->
  dev_open d = None ->
  serve (write_config' (JObj f)) d =
  match send_commands' cmds []
          (opened (field (u "port") f) (field (u "baudrate") f) (boot d)) with
  | None => None
  | Some (s2, Ok lines) =>
      Some (Reply (success_reply (u "Configuration commands sent successfully.") lines),
            log EvClose s2)
  | Some (s2, Raise e) =>
      Some (Reply (write_config_except' (field (u "port") f) e), s2)
  end.
Proof.
  intros P B C O.
  pose proof (field_truthy_nonempty _ _ P) as N.
  unfold serve. rewrite write_config_dict, P, B, C.
  destruct f as [|kv f]; [congruence|]. cbn [is_not_none andb].
  unfold catch, write_config_try. unfold bind at 1. unfold Serial.
  cbn [open_result log boot]. rewrite O.
  unfold bind at 1, time_sleep at 1. unfold bind at 1, lift at 1. cbn [py_iter].
  unfold bind at 1.
  change (tick 100 (log (EvOpen (field (u "port") (kv :: f))
                           (field (u "baudrate") (kv :: f))
                           SERIAL_TIMEOUT SERIAL_TIMEOUT)
                      (St (dev_clock d) None (dev_writes d) (dev_polls d) [])))
    with (opened (field (u "port") (kv :: f)) (field (u "baudrate") (kv :: f))
            (St (dev_clock d) None (dev_writes d) (dev_polls d) [])).
  unfold boot. rewrite O.
  destruct (send_commands' cmds [] _) as [[s2 [lines|e]]|]; reflexivity.
Qed.

(** X1. A body that is truthy but is not a JSON object (a non-empty list or
    string, a non-zero number, [true]) makes [data.get] raise: the
    [AttributeError] leaves both handlers, before their [try], and no call
    is made on the port. *)
Theorem non_object_body_uncaught data d :
  truthy data = true ->
  (forall f, data <> JObj f) ->
  serve (write_config' data) d
    = Some (Uncaught (Exn AttributeError (py_error_text AttributeError data)), boot d) /\
  serve (save_config' data) d
    = Some (Uncaught (Exn AttributeError (py_error_text AttributeError data)), boot d).
Proof.
  intros T NO. unfold serve, write_config, save_config. rewrite T. cbn [negb].
  destruct data as [|b|z|str|items|f]; try (split; reflexivity).
  exfalso. exact (NO f eq_refl).
Qed.

(** X2. For a body that is a JSON object, the port is opened exactly when
    the test of the handler passes: [port] and [baudrate] truthy (and, for
    [write_config], [commands] not null).  When it passes, the first call on
    the port is the open, with both timeouts at [SERIAL_TIMEOUT], and the
    reply is not a 400; when it does not, the reply is the 400 and nothing
    has happened to the port or to the clock. *)
Theorem port_opened_iff_validated f d :
  (exists r s,
     serve (write_config' (JObj f)) d = Some (Reply r, s) /\
     if validates_write f
     then http_status r <> 400 /\
          exists tr, trace s = EvOpen (field (u "port") f) (field (u "baudrate") f)
                                 SERIAL_TIMEOUT SERIAL_TIMEOUT :: tr
     else http_status r = 400 /\ status r = u "error" /\ s = boot d) /\
  (exists r s,
     serve (save_config' (JObj f)) d = Some (Reply r, s) /\
     if validates_save f
     then http_status r <> 400 /\
          exists tr, trace s = EvOpen (field (u "port") f) (field (u "baudrate") f)
                                 SERIAL_TIMEOUT SERIAL_TIMEOUT :: tr
     else http_status r = 400 /\ status r = u "error" /\ s = boot d).
Proof.
  unfold serve, validates_write, validates_save.
  rewrite write_config_dict, save_config_dict.
  set (port := field (u "port") f). set (baudrate := field (u "baudrate") f).
  set (commands := field (u "commands") f).
  split.
  - destruct f as [|kv f]; [eexists _, _; split; [reflexivity|repeat split]|].
    destruct (truthy port && truthy baudrate && is_not_none commands);
      [|eexists _, _; split; [reflexivity|repeat split]].
    destruct (write_config_try_run py_repr py_error_text port baudrate commands (boot d))
      as (s' & r & E & R).
    rewrite E. exists r, s'. split; [reflexivity|].
    cbn [open_result boot trace app] in R.
    destruct (dev_open d) as [e|].
    + destruct R as [-> ->].
      destruct (write_config_except_http port e) as [H _]. rewrite H.
      split; [lia|]. eexists; reflexivity.
    + destruct (py_iter py_error_text commands) as [cmds|e].
      * destruct R as (evs & j & _ & _ & _ & [(k & -> & _ & T)|(e & -> & T & _)]).
        -- split; [cbn; lia|]. eexists; exact T.
        -- destruct (write_config_except_http port e) as [H _]. rewrite H.
           split; [lia|]. eexists; exact T.
      * destruct R as [-> ->].
        destruct (write_config_except_http port e) as [H _]. rewrite H.
        split; [lia|]. eexists; reflexivity.
  - destruct f as [|kv f]; [eexists _, _; split; [reflexivity|repeat split]|].
    destruct (truthy port && truthy baudrate);
      [|eexists _, _; split; [reflexivity|repeat split]].
    destruct (dev_open d) as [e|] eqn:O.
    + destruct (save_config_try_run py_repr py_error_text port baudrate (boot d))
        as (s' & r & E & R).
      cbn [open_result boot] in R. rewrite O in R. destruct R as [-> ->].
      rewrite E. eexists _, _. split; [reflexivity|].
      destruct (save_config_except_http port e) as [H _]. rewrite H.
      split; [lia|]. eexists; reflexivity.
    + destruct (save_config_shape py_repr py_error_text port baudrate (boot d) O)
        as (s' & r & evs & E & _ & R).
      rewrite E. exists r, s'. split; [reflexivity|].
      cbn [boot trace app] in R.
      destruct R as [(k & -> & T & _)|(e & -> & T & _)].
      * split; [cbn; lia|]. eexists; exact T.
      * destruct (save_config_except_http port e) as [H _]. rewrite H.
        split; [lia|]. eexists; exact T.
Qed.

Lemma write_config_summary data d :
  exists out s,
    serve (write_config' data) d = Some (out, s) /\
    run_summary write_config_except' d out s.
Proof.
  unfold serve, run_summary.
  assert (Bad : forall msg, exists out s,
    Some (Reply (error_reply 400 msg), boot d) = Some (out, s) /\
    run_summary write_config_except' d out s).
  { intros msg. eexists _, _. split; [reflexivity|].
    right; left. exists msg. split; reflexivity. }
  assert (Un : forall e, exn_cls e = AttributeError -> exists out s,
    Some (Uncaught e, boot d) = Some (out, s) /\
    run_summary write_config_except' d out s).
  { intros e He. eexists _, _. split; [reflexivity|].
    left. exists e. repeat split. exact He. }
  unfold run_summary in Bad, Un.
  destruct data as [|b|z|str|items|f]; try (apply Bad).
  - destruct b; [apply Un; reflexivity|apply Bad].
  - unfold write_config. cbn [truthy].
    destruct (z =? 0); cbn [negb]; [apply Bad|apply Un; reflexivity].
  - destruct str; [apply Bad|apply Un; reflexivity].
  - destruct items; [apply Bad|apply Un; reflexivity].
  - rewrite write_config_dict.
    destruct f as [|kv f]; [apply Bad|].
    set (port := field (u "port") (kv :: f)).
    set (baudrate := field (u "baudrate") (kv :: f)).
    set (commands := field (u "commands") (kv :: f)).
    destruct (truthy port && truthy baudrate && is_not_none commands); [|apply Bad].
    destruct (write_config_try_run py_repr py_error_text port baudrate commands (boot d))
      as (s' & r & E & R).
    rewrite E. exists (Reply r), s'. split; [reflexivity|].
    cbn [open_result boot trace app] in R. right; right.
    destruct (dev_open d) as [e|].
    + destruct R as [-> ->]. left. exists port, baudrate, e, [].
      repeat split.
    + destruct (py_iter py_error_text commands) as [cmds|e].
      * destruct R as (evs & j & Io & _ & _ & [(k & -> & _ & T)|(e & -> & T & _)]).
        -- right. eexists port, baudrate, _, _, evs. repeat split; assumption.
        -- left. exists port, baudrate, e, evs. repeat split; assumption.
      * destruct R as [-> ->]. left. exists port, baudrate, e, [].
        repeat split.
Qed.

Lemma save_config_summary data d :
  exists out s,
    serve (save_config' data) d = Some (out, s) /\
    run_summary save_config_except' d out s.
Proof.
  unfold serve, run_summary.
  assert (Bad : forall msg, exists out s,
    Some (Reply (error_reply 400 msg), boot d) = Some (out, s) /\
    run_summary save_config_except' d out s).
  { intros msg. eexists _, _. split; [reflexivity|].
    right; left. exists msg. split; reflexivity. }
  assert (Un : forall e, exn_cls e = AttributeError -> exists out s,
    Some (Uncaught e, boot d) = Some (out, s) /\
    run_summary save_config_except' d out s).
  { intros e He. eexists _, _. split; [reflexivity|].
    left. exists e. repeat split. exact He. }
  unfold run_summary in Bad, Un.
  destruct data as [|b|z|str|items|f]; try (apply Bad).
  - destruct b; [apply Un; reflexivity|apply Bad].
  - unfold save_config. cbn [truthy].
    destruct (z =? 0); cbn [negb]; [apply Bad|apply Un; reflexivity].
  - destruct str; [apply Bad|apply Un; reflexivity].
  - destruct items; [apply Bad|apply Un; reflexivity].
  - rewrite save_config_dict.
    destruct f as [|kv f]; [apply Bad|].
    set (port := field (u "port") (kv :: f)).
    set (baudrate := field (u "baudrate") (kv :: f)).
    destruct (truthy port && truthy baudrate); [|apply Bad].
    destruct (dev_open d) as [e|] eqn:O.
    + destruct (save_config_try_run py_repr py_error_text port baudrate (boot d))
        as (s' & r & E & R).
      cbn [open_result boot] in R. rewrite O in R. destruct R as [-> ->].
      rewrite E. eexists _, _. split; [reflexivity|].
      right; right; left. exists port, baudrate, e, []. repeat split.
    + destruct (save_config_shape py_repr py_error_text port baudrate (boot d) O)
        as (s' & r & evs & E & Io & R).
      rewrite E. exists (Reply r), s'. split; [reflexivity|].
      cbn [boot trace app] in R. right; right.
      assert (Io' : forallb is_io_event (EvWrite save_bytes :: evs) = true)
        by (cbn [forallb is_io_event andb]; apply poll_events_io, Io).
      destruct R as [(k & -> & T & _)|(e & -> & T & _)].
      * right. eexists port, baudrate, _, _, (EvWrite save_bytes :: evs).
        repeat split; assumption.
      * left. exists port, baudrate, e, (EvWrite save_bytes :: evs).
        repeat split; assumption.
Qed.

Lemma summary_reply_shape failure d out s :
  (forall port e, http_status (failure port e) = 500 /\
                  status (failure port e) = u "error" /\
                  received_data (failure port e) = None) ->
  run_summary failure d out s ->
  match out with
  | Reply r => reply_shape r
  | Uncaught e => exn_cls e = AttributeError /\ trace s = []
  end.
Proof.
  intros F [(e & -> & He & ->)|[(msg & -> & _)|[(p & b & e & evs & -> & _)
                                              |(p & b & msg & lines & evs & -> & _)]]].
  - split; [exact He|reflexivity].
  - right. repeat split. left; reflexivity.
  - destruct (F p e) as (H1 & H2 & H3). right. repeat split; auto.
  - left. repeat split. discriminate.
Qed.

Lemma summary_session_shape failure d out s :
  run_summary failure d out s -> session_shape (trace s).
Proof.
  intros [(e & _ & _ & ->)|[(msg & _ & ->)|[(p & b & e & evs & _ & T & Io)
                                           |(p & b & msg & lines & evs & _ & T & Io)]]].
  - left; reflexivity.
  - left; reflexivity.
  - right. exists p, b, evs. split; [exact Io|]. left; exact T.
  - right. exists p, b, evs. split; [exact Io|]. right; exact T.
Qed.

(** X3. Whatever the body and the device, a reply built by either handler
    has one of three shapes: 200 with status "success" and a [received_data]
    field; 400 or 500 with status "error" and no [received_data].  The only
    other way a request ends is the [AttributeError] of [data.get], with the
    port untouched. *)
Theorem replies_well_formed data d :
  (exists out s,
     serve (write_config' data) d = Some (out, s) /\
     match out with
     | Reply r => reply_shape r
     | Uncaught e => exn_cls e = AttributeError /\ trace s = []
     end) /\
  (exists out s,
     serve (save_config' data) d = Some (out, s) /\
     match out with
     | Reply r => reply_shape r
     | Uncaught e => exn_cls e = AttributeError /\ trace s = []
     end).
Proof.
  split.
  - destruct (write_config_summary data d) as (out & s & E & R).
    exists out, s. split; [exact E|].
    exact (summary_reply_shape _ _ _ _ write_config_except_http R).
  - destruct (save_config_summary data d) as (out & s & E & R).
    exists out, s. split; [exact E|].
    exact (summary_reply_shape _ _ _ _ save_config_except_http R).
Qed.

(** X4. The calls a request makes on the port form one session: none at
    all; or one open followed by writes and polls only; or that, ended by
    one close.  The port is never opened twice, nothing is written or read
    before the open, and nothing is done after the close. *)
Theorem one_session_per_request data d :
  (exists out s,
     serve (write_config' data) d = Some (out, s) /\ session_shape (trace s)) /\
  (exists out s,
     serve (save_config' data) d = Some (out, s) /\ session_shape (trace s)).
Proof.
  split.
  - destruct (write_config_summary data d) as (out & s & E & R).
    exists out, s. split; [exact E|]. exact (summary_session_shape _ _ _ _ R).
  - destruct (save_config_summary data d) as (out & s & E & R).
    exists out, s. split; [exact E|]. exact (summary_session_shape _ _ _ _ R).
Qed.

(** The run of [write_config] when every command can be sent and the device
    takes the writes and answers the polls. *)
Lemma write_config_success_run f d cmds :
  truthy (field (u "port") f) = true ->
  truthy (field (u "baudrate") f) = true ->
  field (u "commands") f = JArr cmds ->
  forallb sendable cmds = true ->
  dev_open d = None ->
  accepting (firstn (List.length cmds) (dev_writes d)) = true ->
  quiet (dev_polls d) = true ->
  exists lines s,
    serve (write_config' (JObj f)) d
      = Some (Reply (success_reply (u "Configuration commands sent successfully.")
                       lines), s) /\
    map Some (writes_of (trace s)) = map wire cmds /\
    dev_clock d + 100 + window * Z.of_nat (List.length cmds) <= now s.
Proof.
  intros P B C Se O A Q.
  rewrite (write_config_opened f d cmds P B C O).
  set (s0 := opened (field (u "port") f) (field (u "baudrate") f) (boot d)).
  destruct (send_commands_prefix [] cmds [] s0 Se A Q)
    as (s' & k & evs & S & T & _ & W & _ & _ & _ & Cl).
  rewrite app_nil_r in S. rewrite S. cbn [send_commands ret].
  eexists _, _. split; [reflexivity|].
  split.
  - cbn [trace log]. rewrite T, !writes_of_app.
    unfold s0. rewrite opened_trace.
    cbn [boot trace app writes_of open_event]. rewrite app_nil_r. exact W.
  - cbn [now log]. unfold s0 in Cl. rewrite opened_now in Cl. exact Cl.
Qed.

(** X7. A [write_config] request whose commands are all sent takes at least
    the 100 ms pause after the open plus one full drain window per command,
    and makes exactly one write per command, in order. *)
Theorem write_config_latency f d cmds :
  truthy (field (u "port") f) = true ->
  truthy (field (u "baudrate") f) = true ->
  field (u "commands") f = JArr cmds ->
  forallb sendable cmds = true ->
  dev_open d = None ->
  accepting (firstn (List.length cmds) (dev_writes d)) = true ->
  quiet (dev_polls d) = true ->
  exists r s,
    serve (write_config' (JObj f)) d = Some (Reply r, s) /\
    http_status r = 200 /\
    List.length (writes_of (trace s)) = List.length cmds /\
    dev_clock d + 100 + READ_RESPONSE_DURATION * 1000 * Z.of_nat (List.length cmds)
      <= now s.
Proof.
  intros P B C Se O A Q.
  destruct (write_config_success_run f d cmds P B C Se O A Q) as (lines & s & E & W & T).
  eexists _, s. split; [exact E|]. split; [reflexivity|]. split; [|exact T].
  apply (f_equal (@List.length _)) in W. rewrite !length_map in W. exact W.
Qed.

(** C5. A valid [write_config] request on a port that opens.  The writes
    made on the port are, in order, those of an initial segment [sent] of
    the command list, and each of them carries the command stripped of
    surrounding whitespace followed by CR LF, one 7-bit byte per character;
    when the reply is the 200 success the segment is the whole list.  When
    every command can be encoded and the device takes the writes and
    answers the polls, the reply is the 200 success and every command of
    the list has been written so. *)
Theorem write_config_wire_format f d cmds :
  truthy (field (u "port") f) = true ->
  truthy (field (u "baudrate") f) = true ->
  field (u "commands") f = JArr cmds ->
  dev_open d = None ->
  exists r s sent rest,
    serve (write_config' (JObj f)) d = Some (Reply r, s) /\
    cmds = sent ++ rest /\
    Forall2 transmitted sent (writes_of (trace s)) /\
    (is_success r = true -> rest = []) /\
    (forallb sendable cmds = true ->
     accepting (firstn (List.length cmds) (dev_writes d)) = true ->
     quiet (dev_polls d) = true ->
     is_success r = true /\ sent = cmds).
Proof.
  intros P B C O.
  destruct (write_config_sent_prefix py_repr py_error_text f d cmds C)
    as (r & s & sent & rest & E & Sp & F & Su).
  exists r, s, sent, rest.
  split; [exact E|]. split; [exact Sp|]. split; [exact F|]. split; [exact Su|].
  intros Se A Q.
  destruct (write_config_success_run f d cmds P B C Se O A Q)
    as (lines & s1 & E1 & _).
  rewrite E in E1. injection E1 as -> _.
  split; [reflexivity|].
  rewrite Sp, (Su eq_refl). symmetry. apply app_nil_r.
Qed.

(** X10. A command made of whitespace only is not skipped: it goes out as a
    bare CR LF and gets its drain window like any other. *)
Theorem blank_command_sent_as_crlf f d str :
  truthy (field (u "port") f) = true ->
  truthy (field (u "baudrate") f) = true ->
  field (u "commands") f = JArr [JStr str] ->
  forallb py_isspace str = true ->
  dev_open d = None ->
  accepting (firstn 1 (dev_writes d)) = true ->
  quiet (dev_polls d) = true ->
  exists r s,
    serve (write_config' (JObj f)) d = Some (Reply r, s) /\
    http_status r = 200 /\
    writes_of (trace s) = [[x0d; x0a]] /\
    dev_clock d + 100 + READ_RESPONSE_DURATION * 1000 <= now s.
Proof.
  intros P B C Bl O A Q.
  assert (Wi : wire (JStr str) = Some [x0d; x0a])
    by (cbn [wire]; rewrite (py_strip_blank _ Bl); reflexivity).
  assert (Se : forallb sendable [JStr str] = true)
    by (cbn [forallb]; unfold sendable; rewrite Wi; reflexivity).
  destruct (write_config_success_run f d [JStr str] P B C Se O A Q)
    as (lines & s & E & W & T).
  eexists _, s. split; [exact E|]. split; [reflexivity|].
  split; [|cbn [List.length] in T; unfold window in T; lia].
  cbn [map] in W. rewrite Wi in W.
  destruct (writes_of (trace s)) as [|b [|b' ws]]; try discriminate W.
  inversion W. reflexivity.
Qed.

(** X5. When the write of a command raises, after the commands before it
    were sent and drained, the loop stops there: the reply is the one of the
    [except] clause for that exception, a 500 without transcript; the writes
    made are those of the commands up to and including the one that failed;
    the commands after it are never written. *)
Theorem write_failure_stops_sequence f d pre cmd post ws_pre e ws_post :
  truthy (field (u "port") f) = true ->
  truthy (field (u "baudrate") f) = true ->
  field (u "commands") f = JArr (pre ++ cmd :: post) ->
  forallb sendable (pre ++ [cmd]) = true ->
  dev_open d = None ->
  dev_writes d = ws_pre ++ WriteRaises e :: ws_post ->
  List.length ws_pre = List.length pre ->
  accepting ws_pre = true ->
  quiet (dev_polls d) = true ->
  exists s,
    serve (write_config' (JObj f)) d
      = Some (Reply (write_config_except' (field (u "port") f) e), s) /\
    http_status (write_config_except' (field (u "port") f) e) = 500 /\
    received_data (write_config_except' (field (u "port") f) e) = None /\
    map Some (writes_of (trace s)) = map wire (pre ++ [cmd]) /\
    writes_left s = ws_post.
Proof.
  intros P B C Se O Wd Len A Q.
  rewrite forallb_app in Se. apply andb_true_iff in Se. destruct Se as [Sp Sc].
  cbn [forallb] in Sc. rewrite andb_true_r in Sc.
  unfold sendable in Sc. destruct (wire cmd) as [b|] eqn:Wr; [|discriminate].
  destruct cmd as [| | |str| |]; try discriminate Wr. cbn [wire] in Wr.
  rewrite (write_config_opened f d _ P B C O).
  set (s0 := opened (field (u "port") f) (field (u "baudrate") f) (boot d)).
  assert (W0 : writes_left s0 = ws_pre ++ WriteRaises e :: ws_post) by exact Wd.
  destruct (send_commands_prefix (JStr str :: post) pre [] s0)
    as (s' & k & evs & S & T & _ & W & _ & Wl & _ & _);
    [exact Sp
    |rewrite W0, <- Len, firstn_app, Nat.sub_diag, firstn_all; cbn [firstn];
     rewrite app_nil_r; exact A
    |exact Q|].
  rewrite S. cbn [send_commands]. unfold bind at 1, lift at 1. cbn [str_strip].
  unfold bind at 1, lift at 1, encode. rewrite Wr. unfold bind at 1.
  rewrite W0, <- Len, skipn_app, Nat.sub_diag, skipn_all in Wl. cbn [skipn app] in Wl.
  unfold ser_write. cbn [writes_left log]. rewrite Wl.
  eexists. split; [reflexivity|].
  destruct (write_config_except_http (field (u "port") f) e) as (H1 & _ & H3).
  split; [exact H1|]. split; [exact H3|]. split; [|reflexivity].
  cbn [trace set_writes log]. rewrite T, !writes_of_app.
  unfold s0. rewrite opened_trace. cbn [boot trace app writes_of open_event].
  rewrite map_app, W, map_app. cbn [map wire]. rewrite Wr. reflexivity.
Qed.

(** X6. A command that cannot be sent (an element that is not a string, or
    a string with a character outside ASCII left after stripping) stops the
    loop before any write for it: the commands before it were written, none
    after, and the reply is the generic 500 built from the text of the
    [AttributeError] or [UnicodeEncodeError]. *)
Theorem unsendable_command_stops_sequence f d pre bad post :
  truthy (field (u "port") f) = true ->
  truthy (field (u "baudrate") f) = true ->
  field (u "commands") f = JArr (pre ++ bad :: post) ->
  forallb sendable pre = true ->
  sendable bad = false ->
  dev_open d = None ->
  accepting (firstn (List.length pre) (dev_writes d)) = true ->
  quiet (dev_polls d) = true ->
  exists e s,
    serve (write_config' (JObj f)) d
      = Some (Reply (error_reply 500 (u "An unexpected error occurred: " ++ exn_text e)),
              s) /\
    (exn_cls e = AttributeError \/ exn_cls e = UnicodeEncodeError) /\
    map Some (writes_of (trace s)) = map wire pre.
Proof.
  intros P B C Sp Sb O A Q.
  rewrite (write_config_opened f d _ P B C O).
  set (s0 := opened (field (u "port") f) (field (u "baudrate") f) (boot d)).
  destruct (send_commands_prefix (bad :: post) pre [] s0 Sp A Q)
    as (s' & k & evs & S & T & _ & W & _ & _ & _ & _).
  rewrite S.
  assert (Tr : map Some (writes_of (trace s')) = map wire pre).
  { rewrite T, writes_of_app. unfold s0. rewrite opened_trace.
    cbn [boot trace app writes_of open_event]. exact W. }
  unfold sendable in Sb. cbn [send_commands]. unfold bind at 1, lift at 1.
  destruct bad as [|b|z|str|items|fields]; cbn [str_strip];
    try (eexists (Exn AttributeError _), s'; split; [reflexivity|];
         split; [left; reflexivity|exact Tr]).
  cbn [wire] in Sb. unfold bind at 1, lift at 1, encode.
  destruct (encode_ascii (py_strip str ++ CRLF)); [discriminate|].
  eexists (Exn UnicodeEncodeError _), s'. split; [reflexivity|].
  split; [right; reflexivity|exact Tr].
Qed.


(** X14. A [commands] value that cannot be iterated (a number or a boolean)
    passes the test on line 43; the port is opened, the [for] statement
    raises [TypeError], and the reply is the generic 500: the open is the
    only call made on the port. *)
Theorem non_iterable_commands f d :
  truthy (field (u "port") f) = true ->
  truthy (field (u "baudrate") f) = true ->
  (exists z, field (u "commands") f = JInt z) \/
  (exists b, field (u "commands") f = JBool b) ->
  dev_open d = None ->
  serve (write_config' (JObj f)) d
    = Some (Reply (error_reply 500
                     (u "An unexpected error occurred: "
                        ++ py_error_text TypeError (field (u "commands") f))),
            St (dev_clock d + 100) None (dev_writes d) (dev_polls d)
               [EvOpen (field (u "port") f) (field (u "baudrate") f)
                  SERIAL_TIMEOUT SERIAL_TIMEOUT]).
Proof.
  intros P B C O.
  pose proof (field_truthy_nonempty _ _ P) as N.
  unfold serve. rewrite write_config_dict, P, B.
  destruct f as [|kv f]; [congruence|].
  destruct (write_config_try_run py_repr py_error_text (field (u "port") (kv :: f))
              (field (u "baudrate") (kv :: f)) (field (u "commands") (kv :: f)) (boot d))
    as (s' & r & E & R).
  cbn [open_result boot] in R. rewrite O in R.
  destruct C as [[z C]|[b C]]; rewrite C in *; cbn [is_not_none andb py_iter] in *;
    rewrite E; destruct R as [-> ->]; unfold opened, boot; rewrite O; reflexivity.
Qed.

(** X16. A [commands] value that is a string is not rejected either: the
    [for] statement takes it character by character, and the request runs
    as if the body had the list of its one-character strings. *)
Theorem string_commands_sent_by_character f f' d str :
  f <> [] -> f' <> [] ->
  field (u "port") f' = field (u "port") f ->
  field (u "baudrate") f' = field (u "baudrate") f ->
  field (u "commands") f = JStr str ->
  field (u "commands") f' = JArr (map (fun c => JStr [c]) str) ->
  serve (write_config' (JObj f)) d = serve (write_config' (JObj f')) d.
Proof.
  intros N N' P B C C'. unfold serve.
  rewrite !write_config_dict, P, B, C, C'.
  destruct f; [congruence|]. destruct f'; [congruence|].
  reflexivity.
Qed.

(** X15. The handlers look at nothing in the body but [port], [baudrate]
    and, for [write_config], [commands]: two non-empty objects that agree
    on these fields (whatever else they hold, and in whatever order) get the
    same reply and the same calls on the port. *)
Theorem only_named_fields_matter f f' d :
  f <> [] -> f' <> [] ->
  field (u "port") f' = field (u "port") f ->
  field (u "baudrate") f' = field (u "baudrate") f ->
  serve (save_config' (JObj f')) d = serve (save_config' (JObj f)) d /\
  (field (u "commands") f' = field (u "commands") f ->
   serve (write_config' (JObj f')) d = serve (write_config' (JObj f)) d).
Proof.
  intros N N' P B. unfold serve.
  rewrite !write_config_dict, !save_config_dict, P, B.
  destruct f; [congruence|]. destruct f'; [congruence|].
  split; [reflexivity|]. intros ->. reflexivity.
Qed.

End More.

(** ** Concrete runs of the further properties *)

Lemma echo_recorded_witness :
  drain (u "command") 6 0 []
    (St 0 None [] [Data 4 (ReadLine (ascii_bytes "OK" ++ [x0d; x0a])) 0] [])
  = drain (u "command") 5 0 ([] ++ [received_annotation (py_strip (u " OK "))])
      (St (0 + Z.of_N 0 + 10) None [] [] ([] ++ [EvInWaiting; EvReadline])).
Proof.
  apply (echo_recorded (u "command") 5 0 []
           (St 0 None [] [Data 4 (ReadLine (ascii_bytes "OK" ++ [x0d; x0a])) 0] [])
           4 (ascii_bytes "OK" ++ [x0d; x0a]) 0 [] (u " OK ")).
  - reflexivity.
  - reflexivity.
  - reflexivity.
  - vm_compute. discriminate.
  - reflexivity.
Defined.

Lemma drain_window_in_waiting_raises_witness :
  drain_window (u "save") []
    (St 0 None [] [Idle 3; WaitingRaises (Exn OtherException (u "EIO")); Idle 0] [])
  = Some (log EvInWaiting
            (after_polls [Idle 3] [Idle 0]
               (St 0 None []
                  [Idle 3; WaitingRaises (Exn OtherException (u "EIO")); Idle 0] [])),
          Raise (Exn OtherException (u "EIO"))).
Proof.
  apply (drain_window_in_waiting_raises (u "save") []
           (St 0 None [] [Idle 3; WaitingRaises (Exn OtherException (u "EIO")); Idle 0] [])
           [Idle 3] (Exn OtherException (u "EIO")) [Idle 0]); reflexivity.
Defined.

Lemma non_object_body_uncaught_witness :
  serve (write_config sample_repr sample_error_text (JArr [JInt 1])) dev_idle
    = Some (Uncaught (Exn AttributeError
                        (sample_error_text AttributeError (JArr [JInt 1]))),
            boot dev_idle) /\
  serve (save_config sample_repr sample_error_text (JArr [JInt 1])) dev_idle
    = Some (Uncaught (Exn AttributeError
                        (sample_error_text AttributeError (JArr [JInt 1]))),
            boot dev_idle).
Proof.
  apply (non_object_body_uncaught sample_repr sample_error_text (JArr [JInt 1]) dev_idle).
  - reflexivity.
  - intros f. discriminate.
Defined.

Lemma write_config_latency_witness :
  exists r s,
    serve (write_config sample_repr sample_error_text
             (JObj (request 115200 [JStr (u "MODE ROVER"); JStr (u "SAVECONFIG")])))
      dev_glitch = Some (Reply r, s) /\
    http_status r = 200 /\
    List.length (writes_of (trace s)) = 2%nat /\
    0 + 100 + READ_RESPONSE_DURATION * 1000 * Z.of_nat 2 <= now s.
Proof.
  apply (write_config_latency sample_repr sample_error_text
           (request 115200 [JStr (u "MODE ROVER"); JStr (u "SAVECONFIG")]) dev_glitch
           [JStr (u "MODE ROVER"); JStr (u "SAVECONFIG")]); reflexivity.
Defined.

Lemma blank_command_sent_as_crlf_witness :
  exists r s,
    serve (write_config sample_repr sample_error_text
             (JObj (request 115200 [JStr (u "  ")]))) dev_idle = Some (Reply r, s) /\
    http_status r = 200 /\
    writes_of (trace s) = [[x0d; x0a]] /\
    0 + 100 + READ_RESPONSE_DURATION * 1000 <= now s.
Proof.
  apply (blank_command_sent_as_crlf sample_repr sample_error_text
           (request 115200 [JStr (u "  ")]) dev_idle (u "  ")); reflexivity.
Defined.

Lemma write_failure_stops_sequence_witness :
  exists s,
    serve (write_config sample_repr sample_error_text
             (JObj (request 115200 [JStr (u "A"); JStr (u "B"); JStr (u "C")])))
      (Device 0 None [WriteOk 0; WriteRaises (Exn SerialException (u "Write timeout"))] [])
      = Some (Reply (write_config_except sample_repr (JStr usb0)
                       (Exn SerialException (u "Write timeout"))), s) /\
    http_status (write_config_except sample_repr (JStr usb0)
                   (Exn SerialException (u "Write timeout"))) = 500 /\
    received_data (write_config_except sample_repr (JStr usb0)
                     (Exn SerialException (u "Write timeout"))) = None /\
    map Some (writes_of (trace s)) = map wire ([JStr (u "A")] ++ [JStr (u "B")]) /\
    writes_left s = [].
Proof.
  apply (write_failure_stops_sequence sample_repr sample_error_text
           (request 115200 [JStr (u "A"); JStr (u "B"); JStr (u "C")])
           (Device 0 None
              [WriteOk 0; WriteRaises (Exn SerialException (u "Write timeout"))] [])
           [JStr (u "A")] (JStr (u "B")) [JStr (u "C")] [WriteOk 0]
           (Exn SerialException (u "Write timeout")) []); reflexivity.
Defined.

Lemma unsendable_command_stops_sequence_witness :
  exists e s,
    serve (write_config sample_repr sample_error_text
             (JObj (request 115200 [JStr (u "A"); JInt 5; JStr (u "C")]))) dev_idle
      = Some (Reply (error_reply 500 (u "An unexpected error occurred: " ++ exn_text e)),
              s) /\
    (exn_cls e = AttributeError \/ exn_cls e = UnicodeEncodeError) /\
    map Some (writes_of (trace s)) = map wire [JStr (u "A")].
Proof.
  apply (unsendable_command_stops_sequence sample_repr sample_error_text
           (request 115200 [JStr (u "A"); JInt 5; JStr (u "C")]) dev_idle
           [JStr (u "A")] (JInt 5) [JStr (u "C")]); reflexivity.
Defined.


Lemma non_iterable_commands_witness :
  serve (write_config sample_repr sample_error_text
           (JObj [(u "port", JStr usb0); (u "baudrate", JInt 115200);
                  (u "commands", JInt 5)])) dev_idle
    = Some (Reply (error_reply 500
                     (u "An unexpected error occurred: "
                        ++ sample_error_text TypeError (JInt 5))),
            St (0 + 100) None [] []
               [EvOpen (JStr usb0) (JInt 115200) SERIAL_TIMEOUT SERIAL_TIMEOUT]).
Proof.
  apply (non_iterable_commands sample_repr sample_error_text
           [(u "port", JStr usb0); (u "baudrate", JInt 115200); (u "commands", JInt 5)]
           dev_idle); try reflexivity.
  left. exists 5. reflexivity.
Defined.

Lemma string_commands_sent_by_character_witness :
  serve (write_config sample_repr sample_error_text
           (JObj [(u "port", JStr usb0); (u "baudrate", JInt 115200);
                  (u "commands", JStr (u "AB"))])) dev_idle
  = serve (write_config sample_repr sample_error_text
             (JObj (request 115200 [JStr (u "A"); JStr (u "B")]))) dev_idle.
Proof.
  apply (string_commands_sent_by_character sample_repr sample_error_text
           [(u "port", JStr usb0); (u "baudrate", JInt 115200);
            (u "commands", JStr (u "AB"))]
           (request 115200 [JStr (u "A"); JStr (u "B")]) dev_idle (u "AB"));
    try reflexivity; discriminate.
Defined.

Lemma only_named_fields_matter_witness :
  serve (save_config sample_repr sample_error_text
           (JObj [(u "baudrate", JInt 115200); (u "note", JNull);
                  (u "commands", JArr []); (u "port", JStr usb0)])) dev_idle
    = serve (save_config sample_repr sample_error_text
               (JObj (request 115200 []))) dev_idle /\
  serve (write_config sample_repr sample_error_text
           (JObj [(u "baudrate", JInt 115200); (u "note", JNull);
                  (u "commands", JArr []); (u "port", JStr usb0)])) dev_idle
    = serve (write_config sample_repr sample_error_text
               (JObj (request 115200 []))) dev_idle.
Proof.
  destruct (only_named_fields_matter sample_repr sample_error_text
              (request 115200 [])
              [(u "baudrate", JInt 115200); (u "note", JNull);
               (u "commands", JArr []); (u "port", JStr usb0)]
              dev_idle) as [H1 H2]; try reflexivity; try discriminate.
  split; [exact H1|exact (H2 eq_refl)].
Defined.

Lemma write_config_wire_format_witness :
  exists r s sent rest,
    serve (write_config sample_repr sample_error_text
             (JObj (request 115200 [JStr (u " MODE ROVER "); JStr (u "LOG GPGGA")])))
          dev_idle = Some (Reply r, s) /\
    [JStr (u " MODE ROVER "); JStr (u "LOG GPGGA")] = sent ++ rest /\
    Forall2 transmitted sent (writes_of (trace s)) /\
    is_success r = true /\
    sent = [JStr (u " MODE ROVER "); JStr (u "LOG GPGGA")].
Proof.
  destruct (write_config_wire_format sample_repr sample_error_text
              (request 115200 [JStr (u " MODE ROVER "); JStr (u "LOG GPGGA")])
              dev_idle [JStr (u " MODE ROVER "); JStr (u "LOG GPGGA")]
              eq_refl eq_refl eq_refl eq_refl)
    as (r & s & sent & rest & E & Sp & F & _ & Full).
  exists r, s, sent, rest.
  split; [exact E|]. split; [exact Sp|]. split; [exact F|].
  apply Full; reflexivity.
Defined.

End App.
